(** * DocumentPhotoExtractor: the orchestration contract of [DocumentProcessor.process]

    A shallow embedding of [document_processor.py].  The pipeline is glue
    around seven collaborators imported from [utils.*]; those are taken as
    parameters.  Python values that the pipeline inspects dynamically
    (analysis results, face payloads) are modelled by [pyval]; dictionaries
    are finite maps with string keys; calls to collaborators are recorded in
    a trace so that "is called" and "is called exactly once" can be stated;
    exceptions are an explicit [Raise] outcome carrying [str(e)]; the
    exceptions that [except Exception] does not handle are told apart in
    [process_escaping]. *)

From Stdlib Require Import ZArith Strings.Ascii Strings.Byte.
From stdpp Require Import gmap strings list fin_maps sorting pretty.

Set Warnings "-register-all".

(** ** Python values *)

Inductive pyval : Type :=
  | PNone
  | PBool (b : bool)
  | PInt (z : Z)
  | PStr (s : string)
  | PBytes (bs : list byte)
  | PList (l : list pyval)
  | PDict (d : gmap string pyval).

(** Truth value testing, as used by [if x], [not x], [x and y], [x or y]. *)
Definition truthy (v : pyval) : bool :=
  match v with
  | PNone => false
  | PBool b => b
  | PInt z => negb (z =? 0)%Z
  | PStr s => match s with EmptyString => false | String _ _ => true end
  | PBytes bs => match bs with [] => false | _ :: _ => true end
  | PList l => match l with [] => false | _ :: _ => true end
  | PDict d => negb (size d =? 0)
  end.

(** [a or b] returns one of its operands. *)
Definition py_or (a b : pyval) : pyval := if truthy a then a else b.

Definition py_type_name (v : pyval) : string :=
  match v with
  | PNone => "NoneType"
  | PBool _ => "bool"
  | PInt _ => "int"
  | PStr _ => "str"
  | PBytes _ => "bytes"
  | PList _ => "list"
  | PDict _ => "dict"
  end.

(** [str(e)] of the AttributeError raised by [v.attr] when [v] has no such
    attribute. *)
Definition attribute_error (v : pyval) (attr : string) : string :=
  "'" +:+ py_type_name v +:+ "' object has no attribute '" +:+ attr +:+ "'".

(** [d.get(k)] and [d.get(k, dflt)] on a dictionary. *)
Definition dict_get (d : gmap string pyval) (k : string) (dflt : pyval) : pyval :=
  default dflt (d !! k).

(** The text values handled by the pipeline: a [str] or [None]. *)
Definition text_truthy (t : option string) : bool :=
  match t with
  | None => false
  | Some s => truthy (PStr s)
  end.

Definition newline : string := String "010"%char EmptyString.

(** ** Outcomes, calls and the pipeline monad *)

Inductive outcome (A : Type) : Type :=
  | Ok (a : A)
  | Raise (msg : string).
Arguments Ok {A} a.
Arguments Raise {A} msg.

(** One constructor per collaborator, with the arguments of the call. *)
Inductive event : Type :=
  | EvGetDocumentType (file_path : string)
  | EvExtractText (file_path doc_type : string)
  | EvPerformOcr (file_path doc_type : string)
  | EvExtractImages (file_path doc_type : string)
  | EvExtractFaces (img : pyval)
  | EvAnalyzeDocument (text_content : string)
  | EvAnalyzeImageContent (face : pyval).

Definition is_ocr_call (e : event) : bool :=
  match e with EvPerformOcr _ _ => true | _ => false end.

Definition is_text_analysis_call (e : event) : bool :=
  match e with EvAnalyzeDocument _ => true | _ => false end.

Definition is_image_analysis_call (e : event) : bool :=
  match e with EvAnalyzeImageContent _ => true | _ => false end.

Section Pipeline.

(** Whatever the collaborators depend on and change: files, the remote
    service, the clock.  A collaborator may answer differently each time. *)
Variable World : Type.

Definition external (A : Type) : Type := World -> outcome A * World.

(** The names imported at the top of [document_processor.py], typed by the
    way the pipeline uses what they return: a document type is a [str]
    compared with ['image'] and ['pdf']; a text is a [str] or [None] (line
    41); images and faces come as lists that are iterated and measured; an
    analysis is any value, since the pipeline probes it with [.get], [in]
    and [isinstance].  Each of them may also raise. *)
Record utils : Type := {
  get_document_type : string -> external string;
  extract_text_from_document : string -> string -> external (option string);
  perform_ocr : string -> string -> external (option string);
  extract_images : string -> string -> external (list pyval);
  extract_faces : pyval -> external (list pyval);
  analyze_document : string -> external pyval;
  analyze_image_content : pyval -> external pyval;
}.

Variable U : utils.

(** [bs.decode('utf-8')]: the text, or the UnicodeDecodeError message. *)
Variable bytes_decode : list byte -> outcome string.

Record state : Type := { world : World; trace : list event }.

Definition initial (w : World) : state := {| world := w; trace := [] |}.

Definition M (A : Type) : Type := state -> outcome A * state.

Definition ret {A} (a : A) : M A := fun st => (Ok a, st).

Definition raise {A} (msg : string) : M A := fun st => (Raise msg, st).

Definition bind {A B} (m : M A) (k : A -> M B) : M B :=
  fun st =>
    match m st with
    | (Ok a, st') => k a st'
    | (Raise msg, st') => (Raise msg, st')
    end.

(** Calling a collaborator: the call is logged, then it runs. *)
Definition call {A} (ev : event) (f : external A) : M A :=
  fun st =>
    let (r, w') := f (world st) in
    (r, {| world := w'; trace := trace st ++ [ev] |}).

Definition lift {A} (r : outcome A) : M A := fun st => (r, st).

(** [try: body / except Exception as e: handler(str(e))], for the
    exceptions that [Raise] stands for: the instances of [Exception], with
    their [str] as message.  The others are the matter of
    [process_escaping] below. *)
Definition try_except {A} (body : M A) (handler : string -> M A) : M A :=
  fun st =>
    match body st with
    | (Ok a, st') => (Ok a, st')
    | (Raise msg, st') => handler msg st'
    end.

Notation "x <- m ;; k" := (bind m (fun x => k))
  (at level 100, m at next level, right associativity).

(** [for x in l: acc = body(x, acc)]. *)
Fixpoint for_each {A S} (l : list A) (body : A -> S -> M S) (acc : S) : M S :=
  match l with
  | [] => ret acc
  | x :: rest => acc' <- body x acc ;; for_each rest body acc'
  end.

(** [[f(x) for x in l]]. *)
Fixpoint comprehension {A B} (f : A -> M B) (l : list A) : M (list B) :=
  match l with
  | [] => ret []
  | x :: rest => y <- f x ;; ys <- comprehension f rest ;; ret (y :: ys)
  end.

(** Looking up a dictionary method ([get], [update]) on a value: only a
    [dict] has it. *)
Definition as_dict (attr : string) (v : pyval) : M (gmap string pyval) :=
  match v with
  | PDict d => ret d
  | _ => raise (attribute_error v attr)
  end.

(** ** The pipeline, block by block

    The [logger] calls are left out: they return nothing and the lengths
    they format are those of a text guarded by [if text_content] and of
    lists. *)

(** Line 43: [(not text_content or len(text_content) < 50)]. *)
Definition text_insufficient (text_content : option string) : bool :=
  match text_content with
  | None => true
  | Some text => negb (truthy (PStr text)) || (String.length text <? 50)
  end.

(** Line 43: [doc_type in ['image', 'pdf']]. *)
Definition image_based (doc_type : string) : bool :=
  bool_decide (doc_type ∈ ["image"; "pdf"]).

(** Lines 47-52. *)
Definition combine_text (text_content ocr_text : option string) : option string :=
  if text_truthy ocr_text then
    match text_content, ocr_text with
    | Some text, Some ocr =>
        if truthy (PStr text) then Some (text +:+ newline +:+ newline +:+ ocr)
        else ocr_text
    | _, _ => ocr_text
    end
  else text_content.

(** Lines 34-54. *)
Definition read_text (file_path : string) : M (string * option string) :=
  doc_type <- call (EvGetDocumentType file_path) (get_document_type U file_path) ;;
  text_content <- call (EvExtractText file_path doc_type)
                    (extract_text_from_document U file_path doc_type) ;;
  if text_insufficient text_content && image_based doc_type then
    ocr_text <- call (EvPerformOcr file_path doc_type) (perform_ocr U file_path doc_type) ;;
    ret (doc_type, combine_text text_content ocr_text)
  else
    ret (doc_type, text_content).

(** Lines 57-68. *)
Definition collect_faces (file_path doc_type : string) (skip_faces : bool)
  : M (list pyval) :=
  images <- call (EvExtractImages file_path doc_type) (extract_images U file_path doc_type) ;;
  if negb skip_faces then
    for_each images
      (fun img face_images =>
         faces <- call (EvExtractFaces img) (extract_faces U img) ;;
         ret (face_images ++ faces))
      []
  else
    ret [].

(** Lines 71-81: the pair [(document_analysis, api_available)]. *)
Definition analyze_text (text_content : option string) : M (gmap string pyval * pyval) :=
  match text_content with
  | Some text =>
      if truthy (PStr text) then
        result <- call (EvAnalyzeDocument text) (analyze_document U text) ;;
        document_analysis <- as_dict "get" result ;;
        ret (document_analysis, dict_get document_analysis "api_available" (PBool false))
      else
        ret (∅, PBool true)
  | None => ret (∅, PBool true)
  end.

(** Lines 85-88, with the short-circuit order of [and] / [or]. *)
Definition need_face_analysis (skip_faces : bool) (face_images : list pyval)
    (document_analysis : gmap string pyval) : M bool :=
  if negb skip_faces && truthy (PList face_images) then
    if negb (truthy (dict_get document_analysis "structured_info" PNone)) then
      ret true
    else
      structured_info <- as_dict "get" (dict_get document_analysis "structured_info" (PDict ∅)) ;;
      ret (negb (truthy (dict_get structured_info "personal_info" PNone)))
  else
    ret false.

(** Lines 97-105: the body of [if image_analysis and image_analysis.get('success')]. *)
Definition merge_image_analysis (image_analysis : gmap string pyval)
    (document_analysis : gmap string pyval) (api_available : pyval)
  : M (gmap string pyval * pyval) :=
  let document_analysis :=
    match document_analysis !! "structured_info" with
    | None => <["structured_info" := PDict ∅]> document_analysis
    | Some _ => document_analysis
    end in
  document_analysis <-
    match image_analysis !! "structured_info" with
    | Some (PDict fields) =>
        target <- as_dict "update" (dict_get document_analysis "structured_info" PNone) ;;
        ret (<["structured_info" := PDict (fields ∪ target)]> document_analysis)
    | _ => ret document_analysis
    end ;;
  ret (document_analysis,
       py_or api_available (dict_get image_analysis "api_available" (PBool false))).

(** Lines 93-105: one iteration of the loop over [face_images[:1]]. *)
Definition analyze_face (face : pyval) (acc : gmap string pyval * pyval)
  : M (gmap string pyval * pyval) :=
  let '(document_analysis, api_available) := acc in
  image_analysis <- call (EvAnalyzeImageContent face) (analyze_image_content U face) ;;
  if truthy image_analysis then
    image_dict <- as_dict "get" image_analysis ;;
    if truthy (dict_get image_dict "success" PNone) then
      merge_image_analysis image_dict document_analysis api_available
    else
      ret (document_analysis, api_available)
  else
    ret (document_analysis, api_available).

(** Lines 85-105. *)
Definition face_fallback (skip_faces : bool) (face_images : list pyval)
    (document_analysis : gmap string pyval) (api_available : pyval)
  : M (gmap string pyval * pyval) :=
  needed <- need_face_analysis skip_faces face_images document_analysis ;;
  if needed then
    for_each (take 1 face_images) analyze_face (document_analysis, api_available)
  else
    ret (document_analysis, api_available).

(** Line 115: [face.decode('utf-8') if isinstance(face, bytes) else face]. *)
Definition encode_face (face : pyval) : M pyval :=
  match face with
  | PBytes bs => s <- lift (bytes_decode bs) ;; ret (PStr s)
  | _ => ret face
  end.

(** Lines 108-119. *)
Definition assemble (doc_type : string) (document_analysis : gmap string pyval)
    (api_available : pyval) (face_images : list pyval) : M pyval :=
  let document_analysis := <["api_available" := api_available]> document_analysis in
  encoded <- comprehension encode_face face_images ;;
  ret (PDict (<["document_type" := PStr doc_type]>
             (<["extracted_info" := PDict document_analysis]>
             (<["face_count" := PInt (Z.of_nat (length face_images))]>
             (<["face_images" := PList encoded]>
             (<["success" := PBool true]> ∅)))))).

(** Lines 34-68: everything that happens before the analyzers. *)
Definition gather (file_path : string) (skip_faces : bool)
  : M (string * option string * list pyval) :=
  text_result <- read_text file_path ;;
  let '(doc_type, text_content) := text_result in
  face_images <- collect_faces file_path doc_type skip_faces ;;
  ret (doc_type, text_content, face_images).

(** Lines 71-119. *)
Definition analyze_and_assemble (skip_faces : bool)
    (gathered : string * option string * list pyval) : M pyval :=
  let '(doc_type, text_content, face_images) := gathered in
  text_analysis <- analyze_text text_content ;;
  let '(document_analysis, api_available) := text_analysis in
  merged <- face_fallback skip_faces face_images document_analysis api_available ;;
  let '(document_analysis, api_available) := merged in
  assemble doc_type document_analysis api_available face_images.

(** The [try] block, lines 31-119. *)
Definition process_body (file_path : string) (skip_faces : bool) : M pyval :=
  gathered <- gather file_path skip_faces ;;
  analyze_and_assemble skip_faces gathered.

(** Lines 123-126. *)
Definition failure_record (msg : string) : pyval :=
  PDict (<["success" := PBool false]> (<["error" := PStr msg]> ∅)).

(** [DocumentProcessor.process(file_path, skip_faces=False)]. *)
Definition process (file_path : string) (skip_faces : bool) : M pyval :=
  try_except (process_body file_path skip_faces)
    (fun msg => ret (failure_record msg)).

End Pipeline.

Arguments Build_utils {World}.
Arguments get_document_type {World}.
Arguments extract_text_from_document {World}.
Arguments perform_ocr {World}.
Arguments extract_images {World}.
Arguments extract_faces {World}.
Arguments analyze_document {World}.
Arguments analyze_image_content {World}.
Arguments world {World}.
Arguments trace {World}.
Arguments initial {World}.
Arguments ret {World A}.
Arguments raise {World A}.
Arguments bind {World A B}.
Arguments call {World A}.
Arguments lift {World A}.
Arguments try_except {World A}.
Arguments for_each {World A S}.
Arguments comprehension {World A B}.
Arguments as_dict {World}.
Arguments read_text {World}.
Arguments collect_faces {World}.
Arguments analyze_text {World}.
Arguments need_face_analysis {World}.
Arguments merge_image_analysis {World}.
Arguments analyze_face {World}.
Arguments face_fallback {World}.
Arguments encode_face {World}.
Arguments assemble {World}.
Arguments gather {World}.
Arguments analyze_and_assemble {World}.
Arguments process_body {World}.
Arguments process {World}.

(** [result[k]] on the record returned by [process]; [None] when the key is
    absent. *)
Definition item (result : pyval) (k : string) : option pyval :=
  match result with
  | PDict d => d !! k
  | _ => None
  end.

(** ** The conditions of the specification, in its own words *)

(** "document_type ∈ {image, pdf} AND (native text is empty OR its length is
    below 50)". *)
Definition ocr_condition (doc_type : string) (native : option string) : Prop :=
  (doc_type = "image" ∨ doc_type = "pdf") ∧
  (native = None ∨ native = Some "" ∨
   ∃ text, native = Some text ∧ String.length text < 50).

(** "the text analysis failed to produce any structured_info": the key is
    absent or its value is empty. *)
Definition no_structured_info (document_analysis : gmap string pyval) : bool :=
  match document_analysis !! "structured_info" with
  | None => true
  | Some v => negb (truthy v)
  end.

(** "produced structured_info without a personal-information subsection": a
    mapping whose [personal_info] is absent or empty. *)
Definition lacks_personal_info (document_analysis : gmap string pyval) : bool :=
  match document_analysis !! "structured_info" with
  | Some (PDict structured_info) =>
      match structured_info !! "personal_info" with
      | None => true
      | Some v => negb (truthy v)
      end
  | _ => false
  end.

(** "ALL of: face-skip is not requested, at least one face was detected, and
    the text analysis failed to produce any structured_info OR produced
    structured_info without a personal-information subsection". *)
Definition fallback_due (skip_faces : bool) (face_images : list pyval)
    (document_analysis : gmap string pyval) : bool :=
  negb skip_faces && (0 <? length face_images)
  && (no_structured_info document_analysis || lacks_personal_info document_analysis).

(** The structured fields an image analysis carries: those of its
    [structured_info] mapping, none when there is no such mapping. *)
Definition image_fields (image_analysis : gmap string pyval) : gmap string pyval :=
  match image_analysis !! "structured_info" with
  | Some (PDict fields) => fields
  | _ => ∅
  end.

(** The existing [structured_info] of a text analysis, when it is a mapping
    or absent. *)
Definition existing_fields (document_analysis : gmap string pyval)
  : option (gmap string pyval) :=
  match document_analysis !! "structured_info" with
  | None => Some ∅
  | Some (PDict fields) => Some fields
  | Some _ => None
  end.

(** A face payload that line 115 can turn into a string. *)
Definition encodable (bytes_decode : list byte -> outcome string) (face : pyval) : Prop :=
  match face with
  | PBytes bs => ∃ s, bytes_decode bs = Ok s
  | _ => True
  end.

(** An analysis that reports the remote analyzer as unavailable. *)
Definition reports_unavailable (analysis : pyval) : Prop :=
  ∃ d : gmap string pyval,
    analysis = PDict d ∧ d !! "api_available" = Some (PBool false).

(** Both analyzer entry points report unavailability, without raising,
    whatever they are asked and whenever. *)
Definition analyzers_unavailable {World} (U : utils World) : Prop :=
  (∀ text w, ∃ analysis w',
      analyze_document U text w = (Ok analysis, w') ∧ reports_unavailable analysis) ∧
  (∀ face w, ∃ analysis w',
      analyze_image_content U face w = (Ok analysis, w') ∧ reports_unavailable analysis).

(** ** Test doubles

    Collaborators that ignore the world and answer from a fixed scenario, as
    a unit test would stub them. *)
Module Stubs.

Record scenario : Type := {
  sc_doc_type : outcome string;
  sc_native_text : outcome (option string);
  sc_ocr_text : outcome (option string);
  sc_images : outcome (list pyval);
  sc_faces : pyval -> outcome (list pyval);
  sc_document_analysis : outcome pyval;
  sc_image_analysis : outcome pyval;
}.

Definition stub (s : scenario) : utils unit := {|
  get_document_type := fun _ w => (sc_doc_type s, w);
  extract_text_from_document := fun _ _ w => (sc_native_text s, w);
  perform_ocr := fun _ _ w => (sc_ocr_text s, w);
  extract_images := fun _ _ w => (sc_images s, w);
  extract_faces := fun img w => (sc_faces s img, w);
  analyze_document := fun _ w => (sc_document_analysis s, w);
  analyze_image_content := fun _ w => (sc_image_analysis s, w);
|}.

(** A decoder for payloads that are plain ASCII, such as base64 text. *)
Definition ascii_decode (bs : list byte) : outcome string :=
  if forallb (fun b => (Byte.to_N b <? 128)%N) bs
  then Ok (String.string_of_list_byte bs)
  else Raise "'utf-8' codec can't decode bytes".

Definition unavailable : pyval :=
  PDict (<["api_available" := PBool false]> ∅).

(** Three images with one face each; payloads are bytes. *)
Definition face_a : pyval := PBytes [x41; x41; x3d; x3d]%byte.
Definition face_b : pyval := PBytes [x42; x42; x3d; x3d]%byte.
Definition face_c : pyval := PStr "Q0M9".

Definition one_face_per_image (img : pyval) : outcome (list pyval) :=
  match img with
  | PInt 0 => Ok [face_a]
  | PInt 1 => Ok [face_b]
  | PInt 2 => Ok [face_c]
  | _ => Ok []
  end.

Definition ten_chars : string := "0123456789".

(** What the pipeline reads from the identity card below. *)
Definition card_text : string := ten_chars +:+ newline +:+ newline +:+ "ABC".
Definition three_faces : list pyval := [face_a; face_b; face_c].
Definition card_text_info : gmap string pyval :=
  <["api_available" := PBool true]>
    (<["structured_info" :=
         PDict (<["document" := PStr "card"]> (<["name" := PStr "from text"]> ∅))]> ∅).
Definition card_image_info : gmap string pyval :=
  <["success" := PBool true]>
    (<["api_available" := PBool true]>
    (<["structured_info" :=
         PDict (<["name" := PStr "from image"]> (<["gender" := PStr "F"]> ∅))]> ∅)).

(** A scanned identity card: short native text, OCR adds some, three
    faces, and a reachable analyzer that knows a name from the text and
    more from the photograph. *)
Definition id_card : scenario := {|
  sc_doc_type := Ok "image";
  sc_native_text := Ok (Some ten_chars);
  sc_ocr_text := Ok (Some "ABC");
  sc_images := Ok [PInt 0; PInt 1; PInt 2];
  sc_faces := one_face_per_image;
  sc_document_analysis := Ok (PDict card_text_info);
  sc_image_analysis := Ok (PDict card_image_info);
|}.

(** The same card while the remote service is down. *)
Definition id_card_offline : scenario := {|
  sc_doc_type := Ok "image";
  sc_native_text := Ok (Some ten_chars);
  sc_ocr_text := Ok (Some "ABC");
  sc_images := Ok [PInt 0; PInt 1; PInt 2];
  sc_faces := one_face_per_image;
  sc_document_analysis := Ok unavailable;
  sc_image_analysis := Ok unavailable;
|}.

(** A word-processing file with neither text nor pictures, while the
    remote service is down. *)
Definition blank_docx_offline : scenario := {|
  sc_doc_type := Ok "docx";
  sc_native_text := Ok (Some "");
  sc_ocr_text := Ok None;
  sc_images := Ok [];
  sc_faces := fun _ => Ok [];
  sc_document_analysis := Ok unavailable;
  sc_image_analysis := Ok unavailable;
|}.

(** A bare photograph: no text at all, OCR finds nothing, one face. *)
Definition bare_photo : scenario := {|
  sc_doc_type := Ok "image";
  sc_native_text := Ok None;
  sc_ocr_text := Ok (Some "");
  sc_images := Ok [PInt 0];
  sc_faces := one_face_per_image;
  sc_document_analysis := Ok unavailable;
  sc_image_analysis := Ok unavailable;
|}.

(** A photograph with OCR text only. *)
Definition scanned_page : scenario := {|
  sc_doc_type := Ok "pdf";
  sc_native_text := Ok (Some "");
  sc_ocr_text := Ok (Some "XYZ");
  sc_images := Ok [];
  sc_faces := fun _ => Ok [];
  sc_document_analysis := Ok unavailable;
  sc_image_analysis := Ok unavailable;
|}.

(** The card again, but the image analyzer raises after the faces were
    found and the text was analyzed. *)
Definition id_card_vision_crash : scenario := {|
  sc_doc_type := Ok "image";
  sc_native_text := Ok (Some ten_chars);
  sc_ocr_text := Ok (Some "ABC");
  sc_images := Ok [PInt 0; PInt 1; PInt 2];
  sc_faces := one_face_per_image;
  sc_document_analysis := Ok unavailable;
  sc_image_analysis := Raise "connection reset";
|}.

Definition run (s : scenario) (file_path : string) (skip_faces : bool) :=
  process (stub s) ascii_decode file_path skip_faces (initial tt).

(** The record a run returned. *)
Definition result_of (r : outcome pyval * state unit) : pyval :=
  match r.1 with
  | Ok result => result
  | Raise _ => PNone
  end.

End Stubs.

(** ** Further observations on runs *)

Definition is_face_detection_call (e : event) : bool :=
  match e with EvExtractFaces _ => true | _ => false end.

(** The place of a collaborator in the body of [process], by the order of
    the lines that call it: 34, 38, 45, 57, 64, 75, 93. *)
Definition stage (e : event) : nat :=
  match e with
  | EvGetDocumentType _ => 0
  | EvExtractText _ _ => 1
  | EvPerformOcr _ _ => 2
  | EvExtractImages _ _ => 3
  | EvExtractFaces _ => 4
  | EvAnalyzeDocument _ => 5
  | EvAnalyzeImageContent _ => 6
  end.

(** [b] may come after [a] in a run: it belongs to a later line, or both
    are face detections of the loop of lines 63-65. *)
Definition follows (a b : event) : Prop :=
  stage a < stage b ∨ (stage a = 4 ∧ stage b = 4).

(** Every run of [m] appends calls in forward order whose places lie
    between [lo] and [hi]. *)
Definition staged {World A} (lo hi : nat) (m : M World A) : Prop :=
  ∀ st r st', m st = (r, st') →
    ∃ evs, trace st' = trace st ++ evs ∧
           StronglySorted follows evs ∧
           Forall (λ e, lo ≤ stage e ≤ hi) evs.

(** The keys of the record built at lines 111-117. *)
Definition success_keys : gset string :=
  {[ "document_type"; "extracted_info"; "face_count"; "face_images"; "success" ]}.

(** What line 115 makes of a face payload: the text of a [bytes] object,
    anything else as it is. *)
Definition encoded_as (bytes_decode : list byte -> outcome string)
    (face encoded : pyval) : Prop :=
  match face with
  | PBytes bs => ∃ s, bytes_decode bs = Ok s ∧ encoded = PStr s
  | _ => encoded = face
  end.

(** More test doubles. *)
Module MoreStubs.

Import Stubs.

(** A file whose type cannot be detected. *)
Definition unreadable : scenario := {|
  sc_doc_type := Raise "cannot open file";
  sc_native_text := Ok None;
  sc_ocr_text := Ok None;
  sc_images := Ok [];
  sc_faces := fun _ => Ok [];
  sc_document_analysis := Ok unavailable;
  sc_image_analysis := Ok unavailable;
|}.

(** The card, with the scenario's analyses replaced. *)
Definition card_with (document_analysis image_analysis : outcome pyval) : scenario := {|
  sc_doc_type := Ok "image";
  sc_native_text := Ok (Some ten_chars);
  sc_ocr_text := Ok (Some "ABC");
  sc_images := Ok [PInt 0; PInt 1; PInt 2];
  sc_faces := one_face_per_image;
  sc_document_analysis := document_analysis;
  sc_image_analysis := image_analysis;
|}.

(** A text analysis whose [structured_info] is a sentence, not a mapping. *)
Definition garbled_info : gmap string pyval :=
  <["api_available" := PBool true]> (<["structured_info" := PStr "n/a"]> ∅).

(** A text analysis whose [structured_info] is JSON [null]. *)
Definition null_info : gmap string pyval :=
  <["api_available" := PBool true]> (<["structured_info" := PNone]> ∅).

(** An image analysis that did not succeed, although the service answered. *)
Definition refused_image_info : gmap string pyval :=
  <["success" := PBool false]> (<["api_available" := PBool true]> ∅).

(** A text analysis without an [api_available] key. *)
Definition bare_info : gmap string pyval :=
  <["structured_info" := PDict (<["name" := PStr "from text"]> ∅)]> ∅.

(** A page of a PDF with enough native text, no pictures. *)
Definition page_text : string :=
  "A page with more than fifty characters of native text, really.".

Definition text_pdf_with (document_analysis : outcome pyval) : scenario := {|
  sc_doc_type := Ok "pdf";
  sc_native_text := Ok (Some page_text);
  sc_ocr_text := Raise "OCR must not run";
  sc_images := Ok [];
  sc_faces := fun _ => Ok [];
  sc_document_analysis := document_analysis;
  sc_image_analysis := Raise "vision must not run";
|}.

(** The card when the image extractor raises. *)
Definition card_images_crash : scenario := {|
  sc_doc_type := Ok "image";
  sc_native_text := Ok (Some ten_chars);
  sc_ocr_text := Ok (Some "ABC");
  sc_images := Raise "corrupt image stream";
  sc_faces := one_face_per_image;
  sc_document_analysis := Ok (PDict card_text_info);
  sc_image_analysis := Ok (PDict card_image_info);
|}.

(** The card when OCR recognises nothing. *)
Definition card_blank_ocr : scenario := {|
  sc_doc_type := Ok "image";
  sc_native_text := Ok (Some ten_chars);
  sc_ocr_text := Ok (Some "");
  sc_images := Ok [PInt 0; PInt 1; PInt 2];
  sc_faces := one_face_per_image;
  sc_document_analysis := Ok (PDict card_text_info);
  sc_image_analysis := Ok (PDict card_image_info);
|}.

(** A picture whose second face is a payload that is not valid text. *)
Definition broken_face : pyval := PBytes [xff; xfe]%byte.

Definition card_broken_face : scenario := {|
  sc_doc_type := Ok "image";
  sc_native_text := Ok (Some ten_chars);
  sc_ocr_text := Ok (Some "ABC");
  sc_images := Ok [PInt 0; PInt 7];
  sc_faces := fun img => match img with
                         | PInt 0 => Ok [face_a]
                         | _ => Ok [broken_face; face_c]
                         end;
  sc_document_analysis := Ok (PDict card_text_info);
  sc_image_analysis := Ok (PDict card_image_info);
|}.

(** The detector of the card, as a function. *)
Definition card_detect (img : pyval) : list pyval :=
  match img with
  | PInt 0 => [face_a]
  | PInt 1 => [face_b]
  | PInt 2 => [face_c]
  | _ => []
  end.

End MoreStubs.

(** ** [app.py]: the filter on uploaded file names

    A [str] is a sequence of characters with code points below 256. *)

(** [config.ALLOWED_EXTENSIONS]. *)
Definition ALLOWED_EXTENSIONS : gset string :=
  {[ "pdf"; "png"; "jpg"; "jpeg"; "docx"; "doc" ]}.

(** [c.lower()] for one character: the letters A-Z, and the capital
    letters of Latin-1 (all of U+00C0-U+00DE but the multiplication sign),
    move up by 32. *)
Definition lower_char (c : ascii) : ascii :=
  let n := nat_of_ascii c in
  if (65 <=? n) && (n <=? 90) then ascii_of_nat (n + 32)
  else if (192 <=? n) && (n <=? 222) && negb (n =? 215) then ascii_of_nat (n + 32)
  else c.

(** [s.lower()]. *)
Fixpoint lower (s : string) : string :=
  match s with
  | EmptyString => EmptyString
  | String c rest => String (lower_char c) (lower rest)
  end.

(** [c in s] for a one-character string [c]. *)
Fixpoint char_in (c : ascii) (s : string) : bool :=
  match s with
  | EmptyString => false
  | String c' rest => Ascii.eqb c' c || char_in c rest
  end.

(** The split that [s.rsplit(sep, 1)] makes at the last [sep], if there is
    one: the text before it and the text after it. *)
Fixpoint rsplit_last (sep : ascii) (s : string) : option (string * string) :=
  match s with
  | EmptyString => None
  | String c rest =>
      match rsplit_last sep rest with
      | Some (before, after) => Some (String c before, after)
      | None => if Ascii.eqb c sep then Some (EmptyString, rest) else None
      end
  end.

(** [s.rsplit(sep, 1)]. *)
Definition rsplit1 (sep : ascii) (s : string) : list string :=
  match rsplit_last sep s with
  | Some (before, after) => [before; after]
  | None => [s]
  end.

(** [l[i]], with its IndexError. *)
Definition list_index {A} (l : list A) (i : nat) : outcome A :=
  match l !! i with
  | Some x => Ok x
  | None => Raise "list index out of range"
  end.

(** [allowed_file(filename)], lines 28-29 of [app.py]. *)
Definition allowed_file (filename : string) : outcome bool :=
  if char_in "." filename then
    match list_index (rsplit1 "." filename) 1 with
    | Ok extension => Ok (bool_decide (lower extension ∈ ALLOWED_EXTENSIONS))
    | Raise msg => Raise msg
    end
  else Ok false.

(** ** [document_extractor.py] and [app.py]: what is done with a record *)

(** [os.path.join(a, b)] on POSIX. *)
Definition starts_with_slash (s : string) : bool :=
  match s with
  | String c _ => Ascii.eqb c "/"
  | EmptyString => false
  end.

Fixpoint ends_with_slash (s : string) : bool :=
  match s with
  | EmptyString => false
  | String c EmptyString => Ascii.eqb c "/"
  | String _ rest => ends_with_slash rest
  end.

Definition path_join (a b : string) : string :=
  if starts_with_slash b then b
  else if negb (truthy (PStr a)) || ends_with_slash a then a +:+ b
  else a +:+ "/" +:+ b.

(** [f"face_{i+1}.jpg"], line 56 of [document_extractor.py]. *)
Definition face_file_name (i : nat) : string :=
  "face_" +:+ pretty (i + 1) +:+ ".jpg".

(** [enumerate(l)], counting from [start]. *)
Fixpoint enumerate_from {A} (start : nat) (l : list A) : list (nat * A) :=
  match l with
  | [] => []
  | x :: rest => (start, x) :: enumerate_from (S start) rest
  end.

(** What a [for] loop sees of a value.  A dictionary gives its keys, here
    in the order of the finite map, which keeps no insertion order. *)
Definition py_iter (v : pyval) : outcome (list pyval) :=
  match v with
  | PList l => Ok l
  | PStr s => Ok ((λ c, PStr (String c EmptyString)) <$> String.list_ascii_of_string s)
  | PBytes bs => Ok ((λ b, PInt (Z.of_N (Byte.to_N b))) <$> bs)
  | PDict d => Ok (PStr <$> (map_to_list d).*1)
  | _ => Raise ("'" +:+ py_type_name v +:+ "' object is not iterable")
  end.

(** Whether [json.dumps] accepts a value: of the values modelled here only
    a [bytes] object, at any depth, is refused. *)
Fixpoint json_serializable (v : pyval) : bool :=
  match v with
  | PBytes _ => false
  | PList l => forallb json_serializable l
  | PDict d => map_fold (λ _ v' rest, json_serializable v' && rest) true d
  | _ => true
  end.

(** [jsonify(v)]: the body of the response, which is [v] itself. *)
Definition jsonify (v : pyval) : outcome pyval :=
  if json_serializable v then Ok v
  else Raise "Object of type bytes is not JSON serializable".

(** [{'error': msg}]. *)
Definition error_body (msg : string) : pyval := PDict (<["error" := PStr msg]> ∅).

(** An uploaded file as the handlers see it: [file.filename], which may be
    [None], and its content. *)
Record upload : Type := { filename : option string; content : list byte }.

(** [bool(file)]: an upload is true when its file name is. *)
Definition upload_truthy (file : upload) : bool := text_truthy (filename file).

Section Files.

Variable World : Type.

(** The calls that reach the operating system; each may raise. *)
Record system : Type := {
  (** [os.makedirs(path, exist_ok=True)] *)
  makedirs : string -> external World unit;
  (** [with open(path, "wb") as f: f.write(data)] *)
  write_file : string -> list byte -> external World unit;
  (** [tempfile.NamedTemporaryFile(delete=False)], by its [name] *)
  named_temporary_file : external World string;
  (** [file.save(path)] *)
  save_upload : upload -> string -> external World unit;
  (** [temp_file.close()] *)
  close_file : string -> external World unit;
  (** [os.unlink(path)] *)
  unlink : string -> external World unit;
}.

Variable OS : system.
Variable U : utils World.
Variable bytes_decode : list byte -> outcome string.

(** [base64.b64decode(v)]: the bytes, or the message of its exception. *)
Variable b64decode : pyval -> outcome (list byte).

(** [', '.join(ALLOWED_EXTENSIONS)]: the order in which a set is iterated
    is not fixed. *)
Variable joined_extensions : string.

(** A call into the operating system: it changes the world and leaves no
    entry in the trace of collaborator calls. *)
Definition effect {A} (f : external World A) : M World A :=
  fun st =>
    let (r, w') := f (world st) in
    (r, {| world := w'; trace := trace st |}).

Notation "x <- m ;; k" := (bind m (fun x => k))
  (at level 100, m at next level, right associativity).

(** Lines 51-63 of [document_extractor.py]: one turn of the loop. *)
Definition save_face (output_dir : string) (i : nat) (face_b64 : pyval)
    (face_paths : list string) : M World (list string) :=
  try_except
    (face_data <- lift (b64decode face_b64) ;;
     let image_path := path_join output_dir (face_file_name i) in
     _ <- effect (write_file OS image_path face_data) ;;
     ret (face_paths ++ [image_path]))
    (fun _ => ret face_paths).

(** [save_faces(result, output_dir)], lines 31-65 of
    [document_extractor.py]. *)
Definition save_faces (result : pyval) (output_dir : string) : M World (list string) :=
  result_dict <- as_dict "get" result ;;
  if negb (truthy (dict_get result_dict "face_images" PNone)) then ret []
  else
    _ <- effect (makedirs OS output_dir) ;;
    faces <- lift (py_iter (dict_get result_dict "face_images" PNone)) ;;
    for_each (enumerate_from 0 faces)
      (fun entry face_paths => save_face output_dir entry.1 entry.2 face_paths)
      [].

(** [api_process()], lines 99-129 of [app.py], as a function of
    [request.files] once Flask has parsed them (parsing itself, at line 101
    and outside the [try], can refuse the request); when it answers, it
    answers with a body and a status. *)
Definition api_process (files : gmap string upload) : M World (pyval * nat) :=
  match files !! "document" with
  | None => ret (error_body "No file part", 400)
  | Some file =>
      if bool_decide (filename file = Some "") then
        ret (error_body "No file selected", 400)
      else
        allowed <- (if upload_truthy file
                    then lift (allowed_file (default "" (filename file)))
                    else ret false) ;;
        if allowed then
          try_except
            (temp_name <- effect (named_temporary_file OS) ;;
             _ <- effect (save_upload OS file temp_name) ;;
             _ <- effect (close_file OS temp_name) ;;
             result <- process U bytes_decode temp_name false ;;
             _ <- effect (unlink OS temp_name) ;;
             body <- lift (jsonify result) ;;
             ret (body, 200))
            (fun msg => ret (error_body msg, 500))
        else
          ret (error_body ("Invalid file type. Allowed types: " +:+ joined_extensions),
               400)
  end.

End Files.

Arguments makedirs {World}.
Arguments write_file {World}.
Arguments named_temporary_file {World}.
Arguments save_upload {World}.
Arguments close_file {World}.
Arguments unlink {World}.
Arguments effect {World A}.
Arguments save_face {World}.
Arguments save_faces {World}.
Arguments api_process {World}.

(** Whether [b64decode] accepts a payload. *)
Definition decodes (b64decode : pyval -> outcome (list byte)) (face : pyval) : bool :=
  match b64decode face with
  | Ok _ => true
  | Raise _ => false
  end.

(** Test doubles for the operating system. *)
Module FileStubs.

(** A disk on which everything works, except what the two switches turn
    off. *)
Definition disk (makedirs_works save_works : bool) : system unit := {|
  makedirs := fun _ w => (if makedirs_works then Ok tt else Raise "Permission denied", w);
  write_file := fun _ _ w => (Ok tt, w);
  named_temporary_file := fun w => (Ok "/tmp/tmpab12cd", w);
  save_upload := fun _ _ w => (if save_works then Ok tt else Raise "No space left on device", w);
  close_file := fun _ w => (Ok tt, w);
  unlink := fun _ w => (Ok tt, w);
|}.

(** A decoder that takes strings and bytes as they are and refuses the
    rest. *)
Definition toy_b64decode (v : pyval) : outcome (list byte) :=
  match v with
  | PStr s => Ok (String.list_byte_of_string s)
  | PBytes bs => Ok bs
  | _ => Raise "argument should be a bytes-like object or ASCII string"
  end.

(** A record with three payloads, the second of which is no payload. *)
Definition three_payloads : pyval :=
  PDict (<["success" := PBool true]>
        (<["face_images" := PList [PStr "QUE9"; PInt 7; PStr "Q0M9"]]> ∅)).

Definition passport_upload : upload :=
  {| filename := Some "Passport.PDF"; content := [x25; x50; x44; x46]%byte |}.

End FileStubs.

(** ** Exceptions that line 121 does not turn into a record

    In the pipeline above [Raise msg] stands for an exception that is an
    instance of [Exception] and whose [str] is [msg]: the kind that
    [except Exception as e] catches and that [str(e)] can report.  A
    collaborator can also leave by an exception of another kind.  Here the
    collaborators say what they throw; whatever it is stops the body of
    [process] at once, and it is remembered beside the world until it
    reaches line 121. *)

Inductive thrown : Type :=
  (** an instance of [Exception] with [str(e) = msg] *)
  | Ordinary (msg : string)
  (** an instance of [Exception] whose [__str__] raises *)
  | Unprintable
  (** not an instance of [Exception]: [KeyboardInterrupt], [SystemExit],
      [GeneratorExit] *)
  | Outside (name : string).

Inductive reply (A : Type) : Type :=
  | Returns (a : A)
  | Throws (e : thrown).
Arguments Returns {A} a.
Arguments Throws {A} e.

Definition responder (World A : Type) : Type := World -> reply A * World.

(** The collaborators of [document_processor.py], saying what they throw. *)
Record raw_utils (World : Type) : Type := {
  raw_get_document_type : string -> responder World string;
  raw_extract_text_from_document : string -> string -> responder World (option string);
  raw_perform_ocr : string -> string -> responder World (option string);
  raw_extract_images : string -> string -> responder World (list pyval);
  raw_extract_faces : pyval -> responder World (list pyval);
  raw_analyze_document : string -> responder World pyval;
  raw_analyze_image_content : pyval -> responder World pyval;
}.
Arguments raw_get_document_type {World}.
Arguments raw_extract_text_from_document {World}.
Arguments raw_perform_ocr {World}.
Arguments raw_extract_images {World}.
Arguments raw_extract_faces {World}.
Arguments raw_analyze_document {World}.
Arguments raw_analyze_image_content {World}.

(** Whether [except Exception as e] followed by [str(e)] handles it. *)
Definition converted (e : thrown) : bool :=
  match e with
  | Ordinary _ => true
  | Unprintable | Outside _ => false
  end.

(** What stands for [e] while it travels through the body. *)
Definition message_of (e : thrown) : string :=
  match e with
  | Ordinary msg => msg
  | Unprintable => ""
  | Outside name => name
  end.

(** A collaborator seen from the body of [process]: a throw stops the
    body, and the exception thrown is noted beside the world. *)
Definition answering {World A} (f : responder World A)
  : external (World * option thrown) A :=
  fun w =>
    match f w.1 with
    | (Returns a, w') => (Ok a, (w', w.2))
    | (Throws e, w') => (Raise (message_of e), (w', Some e))
    end.

Definition with_escapes {World} (R : raw_utils World) : utils (World * option thrown) := {|
  get_document_type := fun file_path => answering (raw_get_document_type R file_path);
  extract_text_from_document := fun file_path doc_type =>
    answering (raw_extract_text_from_document R file_path doc_type);
  perform_ocr := fun file_path doc_type => answering (raw_perform_ocr R file_path doc_type);
  extract_images := fun file_path doc_type =>
    answering (raw_extract_images R file_path doc_type);
  extract_faces := fun img => answering (raw_extract_faces R img);
  analyze_document := fun text => answering (raw_analyze_document R text);
  analyze_image_content := fun face => answering (raw_analyze_image_content R face);
|}.

(** The exception a collaborator threw in this run, if one did. *)
Definition in_flight {World} (st : state (World * option thrown)) : option thrown :=
  (world st).2.

(** How a call of [process] ends for its caller. *)
Inductive completion : Type :=
  | Returned (result : pyval)
  | Escaped (cause : thrown).

(** [process] with lines 121-126 as they are written: an exception of the
    body is turned into the failure record unless it is one that
    [except Exception] lets through or whose [str] cannot be taken; the
    exceptions the pipeline raises itself (AttributeError,
    UnicodeDecodeError) are of the kind that is turned into a record. *)
Definition process_escaping {World} (R : raw_utils World)
    (bytes_decode : list byte -> outcome string)
    (file_path : string) (skip_faces : bool) (st : state (World * option thrown))
  : completion * state (World * option thrown) :=
  match process_body (with_escapes R) bytes_decode file_path skip_faces st with
  | (Ok result, st') => (Returned result, st')
  | (Raise msg, st') =>
      match in_flight st' with
      | Some e => if converted e then (Returned (failure_record msg), st')
                  else (Escaped e, st')
      | None => (Returned (failure_record msg), st')
      end
  end.

(** A computation stops when a collaborator throws: after a run from a
    state with nothing in flight, either nothing is in flight, or the run
    ended with the exception in flight. *)
Definition halts_on_throw {World A} (m : M (World * option thrown) A) : Prop :=
  ∀ st r st', in_flight st = None → m st = (r, st') →
    in_flight st' = None ∨
    ∃ e, in_flight st' = Some e ∧ r = Raise (message_of e).

(** Test doubles that throw. *)
Module EscapeStubs.

(** A page of text on which the remote text analyzer leaves with [e]. *)
Definition analysis_leaves_with (e : thrown) : raw_utils unit := {|
  raw_get_document_type := fun _ w => (Returns "docx", w);
  raw_extract_text_from_document := fun _ _ w => (Returns (Some "Name: Jane Doe"), w);
  raw_perform_ocr := fun _ _ w => (Returns None, w);
  raw_extract_images := fun _ _ w => (Returns [], w);
  raw_extract_faces := fun _ w => (Returns [], w);
  raw_analyze_document := fun _ w => (Throws e, w);
  raw_analyze_image_content := fun _ w => (Returns PNone, w);
|}.

Definition fresh : state (unit * option thrown) := initial (tt, None).

End EscapeStubs.

(** ** Properties of the pipeline *)

Section PipelineProperties.

Context {World : Type}.
Variable U : utils World.
Variable bytes_decode : list byte -> outcome string.

Implicit Types (st : state World) (evs : list event).

(** *** What a computation adds to the trace *)

(** Every run of [m] appends to the trace, and what it appends satisfies
    [Q]. *)
Definition emits {A} (Q : list event -> Prop) (m : M World A) : Prop :=
  ∀ st r st', m st = (r, st') → ∃ evs, trace st' = trace st ++ evs ∧ Q evs.

(** No call at all. *)
Definition quiet {A} (m : M World A) : Prop :=
  ∀ st r st', m st = (r, st') → st' = st.

(** No call of the kind selected by [p]. *)
Definition silent {A} (p : event -> bool) (m : M World A) : Prop :=
  emits (fun evs => filter (fun e => p e = true) evs = []) m.

Lemma quiet_silent {A} p (m : M World A) : quiet m → silent p m.
Proof.
  intros Hq st r st' Hrun. apply Hq in Hrun as ->.
  exists []. by rewrite app_nil_r.
Qed.

Lemma quiet_ret {A} (a : A) : quiet (ret (World := World) a).
Proof. intros st r st' [= _ <-]. done. Qed.

Lemma quiet_raise {A} msg : quiet (raise (World := World) (A := A) msg).
Proof. intros st r st' [= _ <-]. done. Qed.

Lemma quiet_lift {A} (o : outcome A) : quiet (lift (World := World) o).
Proof. intros st r st' [= _ <-]. done. Qed.

Lemma quiet_bind {A B} (m : M World A) (k : A → M World B) :
  quiet m → (∀ a, quiet (k a)) → quiet (bind m k).
Proof.
  intros Hm Hk st r st' Hrun. unfold bind in Hrun.
  destruct (m st) as [[a | msg] st1] eqn:Em; apply Hm in Em as ->.
  - by apply Hk in Hrun.
  - by injection Hrun as _ <-.
Qed.

Lemma quiet_as_dict attr v : quiet (as_dict (World := World) attr v).
Proof. destruct v; first [apply quiet_ret | apply quiet_raise]. Qed.

Lemma quiet_comprehension {A B} (f : A → M World B) l :
  (∀ a, quiet (f a)) → quiet (comprehension f l).
Proof.
  intros Hf. induction l as [| x rest IH]; simpl.
  - apply quiet_ret.
  - apply quiet_bind; [apply Hf | intros y].
    apply quiet_bind; [apply IH | intros ys]. apply quiet_ret.
Qed.

Lemma silent_bind {A B} p (m : M World A) (k : A → M World B) :
  silent p m → (∀ a, silent p (k a)) → silent p (bind m k).
Proof.
  intros Hm Hk st r st' Hrun. unfold bind in Hrun.
  destruct (m st) as [[a | msg] st1] eqn:Em;
    apply Hm in Em as (evs1 & Htr1 & Hf1).
  - apply Hk in Hrun as (evs2 & Htr2 & Hf2).
    exists (evs1 ++ evs2). rewrite Htr2, Htr1, <- app_assoc. split; [done |].
    by rewrite filter_app, Hf1, Hf2.
  - injection Hrun as _ <-. eauto.
Qed.

Lemma silent_call {A} p ev (f : external World A) :
  p ev = false → silent p (call ev f).
Proof.
  intros Hp st r st' Hrun. unfold call in Hrun.
  destruct (f (world st)) as [r0 w']. injection Hrun as _ <-.
  exists [ev]. split; [done |].
  rewrite filter_cons, filter_nil. by rewrite decide_False by (rewrite Hp; done).
Qed.

Lemma silent_for_each {A S} p (body : A → S → M World S) l acc :
  (∀ a s, silent p (body a s)) → silent p (for_each l body acc).
Proof.
  intros Hbody. revert acc. induction l as [| x rest IH]; intros acc; simpl.
  - apply quiet_silent, quiet_ret.
  - apply silent_bind; [apply Hbody | intros acc'; apply IH].
Qed.

Lemma silent_try_except {A} p (body : M World A) handler :
  silent p body → (∀ msg, silent p (handler msg)) →
  silent p (try_except body handler).
Proof.
  intros Hb Hh st r st' Hrun. unfold try_except in Hrun.
  destruct (body st) as [[a | msg] st1] eqn:Eb;
    apply Hb in Eb as (evs1 & Htr1 & Hf1).
  - injection Hrun as _ <-. eauto.
  - apply Hh in Hrun as (evs2 & Htr2 & Hf2).
    exists (evs1 ++ evs2). rewrite Htr2, Htr1, <- app_assoc. split; [done |].
    by rewrite filter_app, Hf1, Hf2.
Qed.

(** *** The blocks that call nobody *)

Lemma quiet_need_face_analysis skip_faces face_images document_analysis :
  quiet (need_face_analysis (World := World) skip_faces face_images document_analysis).
Proof.
  unfold need_face_analysis.
  destruct (negb skip_faces && truthy (PList face_images)); [| apply quiet_ret].
  destruct (negb (truthy _)); [apply quiet_ret |].
  apply quiet_bind; [apply quiet_as_dict | intros; apply quiet_ret].
Qed.

Lemma quiet_merge_image_analysis image_analysis document_analysis api_available :
  quiet (merge_image_analysis (World := World)
           image_analysis document_analysis api_available).
Proof.
  unfold merge_image_analysis.
  apply quiet_bind; [| intros; apply quiet_ret].
  destruct (image_analysis !! "structured_info") as [[] |]; try apply quiet_ret.
  apply quiet_bind; [apply quiet_as_dict | intros; apply quiet_ret].
Qed.

Lemma quiet_encode_face face : quiet (encode_face (World := World) bytes_decode face).
Proof.
  destruct face; simpl; try apply quiet_ret.
  apply quiet_bind; [apply quiet_lift | intros; apply quiet_ret].
Qed.

Lemma quiet_assemble doc_type document_analysis api_available face_images :
  quiet (assemble (World := World) bytes_decode
           doc_type document_analysis api_available face_images).
Proof.
  unfold assemble.
  apply quiet_bind; [| intros; apply quiet_ret].
  apply quiet_comprehension, quiet_encode_face.
Qed.

(** *** Inverting successful runs *)

Lemma bind_ok {A B} (m : M World A) (k : A → M World B) st b st' :
  bind m k st = (Ok b, st') →
  ∃ a st1, m st = (Ok a, st1) ∧ k a st1 = (Ok b, st').
Proof.
  unfold bind. destruct (m st) as [[a | msg] st1]; [eauto | discriminate].
Qed.

Lemma bind_run {A B} (m : M World A) (k : A → M World B) st a st1 :
  m st = (Ok a, st1) → bind m k st = k a st1.
Proof. intros Hm. unfold bind. by rewrite Hm. Qed.

Lemma comprehension_length {A B} (f : A → M World B) l st ys st' :
  comprehension f l st = (Ok ys, st') → length ys = length l.
Proof.
  revert st ys st'. induction l as [| x rest IH]; intros st ys st'; simpl.
  - by intros [= <- _].
  - intros Hrun.
    apply bind_ok in Hrun as (y & st1 & _ & Hrun).
    apply bind_ok in Hrun as (ys' & st2 & Hrest & Hrun).
    injection Hrun as <- _. simpl. f_equal. eauto.
Qed.

Lemma assemble_ok doc_type document_analysis api_available face_images st result st' :
  assemble bytes_decode doc_type document_analysis api_available face_images st
    = (Ok result, st') →
  ∃ encoded,
    length encoded = length face_images ∧
    item result "success" = Some (PBool true) ∧
    item result "document_type" = Some (PStr doc_type) ∧
    item result "extracted_info"
      = Some (PDict (<["api_available" := api_available]> document_analysis)) ∧
    item result "face_count" = Some (PInt (Z.of_nat (length face_images))) ∧
    item result "face_images" = Some (PList encoded).
Proof.
  unfold assemble. intros Hrun.
  apply bind_ok in Hrun as (encoded & st1 & Henc & Hrun).
  injection Hrun as <- _. exists encoded.
  split; [by eapply comprehension_length |].
  simpl. by simplify_map_eq.
Qed.

Lemma process_body_ok file_path skip_faces st result st' :
  process_body U bytes_decode file_path skip_faces st = (Ok result, st') →
  ∃ doc_type text_content face_images st1 text_info text_api st2
    document_analysis api_available st3,
    gather U file_path skip_faces st = (Ok (doc_type, text_content, face_images), st1) ∧
    analyze_text U text_content st1 = (Ok (text_info, text_api), st2) ∧
    face_fallback U skip_faces face_images text_info text_api st2
      = (Ok (document_analysis, api_available), st3) ∧
    assemble bytes_decode doc_type document_analysis api_available face_images st3
      = (Ok result, st').
Proof.
  unfold process_body. intros Hrun.
  apply bind_ok in Hrun as ([[doc_type text_content] face_images] & st1 & Hg & Hrun).
  unfold analyze_and_assemble in Hrun.
  apply bind_ok in Hrun as ([text_info text_api] & st2 & Ht & Hrun).
  apply bind_ok in Hrun as ([document_analysis api_available] & st3 & Hf & Hrun).
  naive_solver.
Qed.

Lemma process_ok file_path skip_faces st result st' :
  process U bytes_decode file_path skip_faces st = (Ok result, st') →
  item result "success" = Some (PBool true) →
  process_body U bytes_decode file_path skip_faces st = (Ok result, st').
Proof.
  unfold process, try_except.
  destruct (process_body _ _ _ _ st) as [[res | msg] st1]; [done |].
  intros [= <- _]. unfold failure_record. simpl. by simplify_map_eq.
Qed.

Lemma gather_skip file_path st doc_type text_content face_images st1 :
  gather U file_path true st = (Ok (doc_type, text_content, face_images), st1) →
  face_images = [].
Proof.
  unfold gather. intros Hrun.
  apply bind_ok in Hrun as ([dt text] & st0 & _ & Hrun).
  apply bind_ok in Hrun as (faces & st2 & Hc & Hrun).
  injection Hrun as _ _ <- _.
  unfold collect_faces in Hc.
  apply bind_ok in Hc as (images & st3 & _ & Hc). simpl in Hc.
  by injection Hc as <- _.
Qed.

Lemma process_catches file_path skip_faces st :
  ∃ result st',
    process U bytes_decode file_path skip_faces st = (Ok result, st') ∧
    ∀ body_result,
      process_body U bytes_decode file_path skip_faces st = (Ok body_result, st') →
      result = body_result.
Proof.
  unfold process, try_except.
  destruct (process_body _ _ _ _ st) as [[body_result | msg] st1];
    eexists _, _; (split; [reflexivity |]); [by intros ? [= <-] | done].
Qed.

(** *** The claims *)

(** C1. Whenever [process] returns a successful record, its [face_count]
    is the number of elements of its [face_images]. *)
Theorem face_count_is_length file_path skip_faces st result st' :
  process U bytes_decode file_path skip_faces st = (Ok result, st') →
  item result "success" = Some (PBool true) →
  ∃ faces,
    item result "face_images" = Some (PList faces) ∧
    item result "face_count" = Some (PInt (Z.of_nat (length faces))).
Proof.
  intros Hrun Hsucc.
  apply process_ok, process_body_ok in Hrun; [| done].
  destruct Hrun as (dt & text & faces & st1 & ti & ta & st2 & d & av & st3
                    & _ & _ & _ & Hasm).
  apply assemble_ok in Hasm as (encoded & Hlen & _ & _ & _ & Hcount & Himgs).
  exists encoded. by rewrite Hlen.
Qed.

(** C8. With [skip_faces] set, a successful record has an empty
    [face_images] and a [face_count] of zero, whatever images the document
    holds. *)
Theorem skip_faces_gives_no_faces file_path st result st' :
  process U bytes_decode file_path true st = (Ok result, st') →
  item result "success" = Some (PBool true) →
  item result "face_images" = Some (PList []) ∧
  item result "face_count" = Some (PInt 0).
Proof.
  intros Hrun Hsucc.
  apply process_ok, process_body_ok in Hrun; [| done].
  destruct Hrun as (dt & text & faces & st1 & ti & ta & st2 & d & av & st3
                    & Hg & _ & _ & Hasm).
  apply gather_skip in Hg as ->.
  apply assemble_ok in Hasm as (encoded & Hlen & _ & _ & _ & Hcount & Himgs).
  destruct encoded; [done | discriminate].
Qed.

(** C10. On every failure path the returned record has exactly the keys
    [success] and [error]: [document_type], [extracted_info], [face_count]
    and [face_images] are absent, whatever had been computed before the
    exception. *)
Theorem failure_record_has_two_keys file_path skip_faces st msg st' :
  process_body U bytes_decode file_path skip_faces st = (Raise msg, st') →
  ∃ d : gmap string pyval,
    process U bytes_decode file_path skip_faces st = (Ok (PDict d), st') ∧
    dom d = {[ "success"; "error" ]} ∧
    d !! "document_type" = None ∧ d !! "extracted_info" = None ∧
    d !! "face_count" = None ∧ d !! "face_images" = None.
Proof.
  intros Hbody. unfold process, try_except. rewrite Hbody.
  eexists. split; [reflexivity |].
  split; [| by simplify_map_eq].
  rewrite !dom_insert_L, dom_empty_L. set_solver.
Qed.

(** *** OCR fallback *)

Lemma image_based_spec doc_type :
  image_based doc_type = true ↔ doc_type = "image" ∨ doc_type = "pdf".
Proof.
  unfold image_based.
  rewrite bool_decide_eq_true, !elem_of_cons, elem_of_nil. tauto.
Qed.

Lemma text_insufficient_spec native :
  text_insufficient native = true ↔
  native = None ∨ native = Some "" ∨
  ∃ text, native = Some text ∧ String.length text < 50.
Proof.
  unfold text_insufficient. destruct native as [text |]; [| naive_solver].
  rewrite orb_true_iff, Nat.ltb_lt. split.
  - intros [Hempty | Hshort]; [| naive_solver].
    destruct text; [naive_solver | discriminate].
  - intros [Hnone | [Hempty | (text' & Hsome & Hshort)]]; [done | |].
    + injection Hempty as ->. by left.
    + injection Hsome as ->. by right.
Qed.

Lemma ocr_condition_spec doc_type native :
  text_insufficient native && image_based doc_type = true ↔
  ocr_condition doc_type native.
Proof.
  unfold ocr_condition.
  rewrite andb_true_iff, text_insufficient_spec, image_based_spec. tauto.
Qed.

(** C5. When OCR is triggered and returns a non-empty text, the text the
    pipeline goes on with is the native text, a blank line and the OCR
    text if there was native text, and exactly the OCR text otherwise. *)
Theorem ocr_text_is_appended file_path st doc_type w1 native w2 ocr w3 :
  get_document_type U file_path (world st) = (Ok doc_type, w1) →
  extract_text_from_document U file_path doc_type w1 = (Ok native, w2) →
  ocr_condition doc_type native →
  perform_ocr U file_path doc_type w2 = (Ok (Some ocr), w3) →
  ocr ≠ "" →
  ∃ combined st',
    read_text U file_path st = (Ok (doc_type, combined), st') ∧
    (∀ text, native = Some text → text ≠ "" →
       combined = Some (text +:+ newline +:+ newline +:+ ocr)) ∧
    (native = None ∨ native = Some "" → combined = Some ocr).
Proof.
  intros Htype Hnative Hcond Hocr Hne.
  apply ocr_condition_spec in Hcond.
  unfold read_text, bind, call. rewrite Htype. simpl.
  rewrite Hnative. simpl. rewrite Hcond. simpl. rewrite Hocr.
  eexists _, _. split; [reflexivity |].
  unfold combine_text.
  destruct ocr as [| c ocr']; [done |]. simpl.
  split.
  - intros text -> Htext. by destruct text.
  - by intros [-> | ->].
Qed.

Lemma bind_assoc {A B C} (m : M World A) (f : A → M World B) (g : B → M World C) st :
  bind (bind m f) g st = bind m (fun a => bind (f a) g) st.
Proof. unfold bind. by destruct (m st) as [[a | msg] st1]. Qed.

Lemma process_final_state file_path skip_faces st :
  (process U bytes_decode file_path skip_faces st).2
  = (process_body U bytes_decode file_path skip_faces st).2.
Proof.
  unfold process, try_except.
  by destruct (process_body _ _ _ _ st) as [[result | msg] st'].
Qed.

(** A computation followed by one that is silent for [p]: the [p]-calls
    are those of the first part. *)
Lemma calls_of_prefix {A B} p (m : M World A) (k : A → M World B) st r st' :
  (∀ a, silent p (k a)) →
  bind m k st = (r, st') →
  ∃ r1 st1 evs,
    m st = (r1, st1) ∧ trace st' = trace st1 ++ evs ∧
    filter (fun e => p e = true) evs = [].
Proof.
  intros Hk. unfold bind.
  destruct (m st) as [[a | msg] st1] eqn:Em; intros Hrun.
  - apply Hk in Hrun as (evs & Htr & Hf). eauto 6.
  - injection Hrun as _ <-. exists (Raise msg), st1, []; by rewrite app_nil_r.
Qed.

Lemma silent_read_text p file_path :
  (∀ a, p (EvGetDocumentType a) = false) →
  (∀ a b, p (EvExtractText a b) = false) →
  (∀ a b, p (EvPerformOcr a b) = false) →
  silent p (read_text U file_path).
Proof.
  intros H1 H2 H3. unfold read_text.
  apply silent_bind; [by apply silent_call | intros doc_type].
  apply silent_bind; [by apply silent_call | intros text_content].
  destruct (_ && _); [| apply quiet_silent, quiet_ret].
  apply silent_bind; [by apply silent_call | intros ocr_text].
  apply quiet_silent, quiet_ret.
Qed.

Lemma silent_collect_faces p file_path doc_type skip_faces :
  (∀ a b, p (EvExtractImages a b) = false) →
  (∀ a, p (EvExtractFaces a) = false) →
  silent p (collect_faces U file_path doc_type skip_faces).
Proof.
  intros H1 H2. unfold collect_faces.
  apply silent_bind; [by apply silent_call | intros images].
  destruct (negb skip_faces); [| apply quiet_silent, quiet_ret].
  apply silent_for_each. intros img face_images.
  apply silent_bind; [by apply silent_call | intros faces].
  apply quiet_silent, quiet_ret.
Qed.

Lemma silent_analyze_text p text_content :
  (∀ a, p (EvAnalyzeDocument a) = false) →
  silent p (analyze_text U text_content).
Proof.
  intros H1. unfold analyze_text.
  destruct text_content as [text |]; [| apply quiet_silent, quiet_ret].
  destruct (truthy (PStr text)); [| apply quiet_silent, quiet_ret].
  apply silent_bind; [by apply silent_call | intros result].
  apply quiet_silent, quiet_bind; [apply quiet_as_dict | intros; apply quiet_ret].
Qed.

Lemma silent_analyze_face p face acc :
  (∀ a, p (EvAnalyzeImageContent a) = false) →
  silent p (analyze_face U face acc).
Proof.
  intros H1. unfold analyze_face. destruct acc as [document_analysis api_available].
  apply silent_bind; [by apply silent_call | intros image_analysis].
  apply quiet_silent.
  destruct (truthy image_analysis); [| apply quiet_ret].
  apply quiet_bind; [apply quiet_as_dict | intros image_dict].
  destruct (truthy _); [apply quiet_merge_image_analysis | apply quiet_ret].
Qed.

Lemma silent_face_fallback p skip_faces face_images document_analysis api_available :
  (∀ a, p (EvAnalyzeImageContent a) = false) →
  silent p (face_fallback U skip_faces face_images document_analysis api_available).
Proof.
  intros H1. unfold face_fallback.
  apply silent_bind; [apply quiet_silent, quiet_need_face_analysis | intros needed].
  destruct needed; [| apply quiet_silent, quiet_ret].
  apply silent_for_each. intros face acc. by apply silent_analyze_face.
Qed.

Lemma silent_analyze_and_assemble p skip_faces gathered :
  (∀ a, p (EvAnalyzeDocument a) = false) →
  (∀ a, p (EvAnalyzeImageContent a) = false) →
  silent p (analyze_and_assemble U bytes_decode skip_faces gathered).
Proof.
  intros H1 H2. unfold analyze_and_assemble.
  destruct gathered as [[doc_type text_content] face_images].
  apply silent_bind; [by apply silent_analyze_text | intros [text_info text_api]].
  apply silent_bind; [by apply silent_face_fallback | intros [info api]].
  apply quiet_silent, quiet_assemble.
Qed.

Lemma silent_gather p file_path skip_faces :
  (∀ a, p (EvGetDocumentType a) = false) →
  (∀ a b, p (EvExtractText a b) = false) →
  (∀ a b, p (EvPerformOcr a b) = false) →
  (∀ a b, p (EvExtractImages a b) = false) →
  (∀ a, p (EvExtractFaces a) = false) →
  silent p (gather U file_path skip_faces).
Proof.
  intros H1 H2 H3 H4 H5. unfold gather.
  apply silent_bind; [by apply silent_read_text | intros [doc_type text_content]].
  apply silent_bind; [by apply silent_collect_faces | intros face_images].
  apply quiet_silent, quiet_ret.
Qed.

(** The OCR calls of [read_text]. *)
Lemma read_text_ocr_calls file_path st r st' :
  read_text U file_path st = (r, st') →
  ∃ evs,
    trace st' = trace st ++ evs ∧
    ((∃ e, e ∈ evs ∧ is_ocr_call e = true) ↔
     ∃ doc_type w1 native w2,
       get_document_type U file_path (world st) = (Ok doc_type, w1) ∧
       extract_text_from_document U file_path doc_type w1 = (Ok native, w2) ∧
       text_insufficient native && image_based doc_type = true).
Proof.
  unfold read_text, bind, call.
  destruct (get_document_type U file_path (world st)) as [[doc_type | msg] w1] eqn:Etype;
    simpl.
  2:{ intros [= _ <-]. eexists. split; [done |]. split.
      - intros (e & He & Hocr). set_unfold. destruct_or?; by simplify_eq/=.
      - intros (? & ? & ? & ? & ? & _). congruence. }
  destruct (extract_text_from_document U file_path doc_type w1)
    as [[native | msg] w2] eqn:Enative; simpl.
  2:{ intros [= _ <-]. simpl. eexists. rewrite <- app_assoc. split; [done |]. split.
      - intros (e & He & Hocr). set_unfold. destruct_or?; by simplify_eq/=.
      - intros (? & ? & ? & ? & Ht & Hn & _). simplify_eq. congruence. }
  destruct (text_insufficient native && image_based doc_type) eqn:Econd; simpl.
  - destruct (perform_ocr U file_path doc_type w2) as [ocr w3]. simpl.
    intros Hrun.
    assert (st' = {| world := w3;
                     trace := ((trace st ++ [EvGetDocumentType file_path])
                                 ++ [EvExtractText file_path doc_type])
                                 ++ [EvPerformOcr file_path doc_type] |}) as ->
      by (destruct ocr; by injection Hrun as _ <-).
    simpl. eexists. rewrite <- !app_assoc. split; [done |]. split.
    + intros _. by exists doc_type, w1, native, w2.
    + intros _. exists (EvPerformOcr file_path doc_type). set_unfold. tauto.
  - intros [= _ <-]. simpl. eexists. rewrite <- app_assoc. split; [done |]. split.
    + intros (e & He & Hocr). set_unfold. destruct_or?; by simplify_eq/=.
    + intros (? & ? & ? & ? & Ht & Hn & Hc). simplify_eq. congruence.
Qed.

(** C4. In a run of [process], [perform_ocr] is called when and only when
    type detection and native extraction returned, the type is [image] or
    [pdf], and the native text is empty or shorter than 50 characters. *)
Theorem ocr_invoked_iff file_path skip_faces w :
  (∃ e, e ∈ trace (process U bytes_decode file_path skip_faces (initial w)).2 ∧
        is_ocr_call e = true) ↔
  (∃ doc_type w1 native w2,
      get_document_type U file_path w = (Ok doc_type, w1) ∧
      extract_text_from_document U file_path doc_type w1 = (Ok native, w2) ∧
      ocr_condition doc_type native).
Proof.
  rewrite process_final_state.
  destruct (process_body U bytes_decode file_path skip_faces (initial w))
    as [r st'] eqn:Hrun. simpl.
  unfold process_body, gather in Hrun. rewrite bind_assoc in Hrun.
  apply calls_of_prefix with (p := is_ocr_call) in Hrun
    as (r1 & st1 & evs2 & Hread & Htr2 & Hsilent2).
  2:{ intros [doc_type text_content].
      apply silent_bind; [| intros; by apply silent_analyze_and_assemble].
      apply silent_bind; [by apply silent_collect_faces | intros].
      apply quiet_silent, quiet_ret. }
  apply read_text_ocr_calls in Hread as (evs1 & Htr1 & Hiff).
  simpl in Htr1, Hiff. rewrite Htr2, Htr1.
  setoid_rewrite <- ocr_condition_spec. rewrite <- Hiff.
  split; intros (e & He & Hocr); exists e; (split; [| done]).
  - apply elem_of_app in He as [He | He]; [done |].
    assert (e ∈ filter (λ e, is_ocr_call e = true) evs2) as Hin
      by (by apply list_elem_of_filter).
    rewrite Hsilent2 in Hin. by apply elem_of_nil in Hin.
  - apply elem_of_app. by left.
Qed.

(** *** The face-image fallback *)

(** The test of lines 85-88 changes nothing and answers [True] exactly
    when the fallback is due. *)
Lemma need_face_analysis_spec skip_faces face_images document_analysis st r st' :
  need_face_analysis skip_faces face_images document_analysis st = (r, st') →
  st' = st ∧
  if fallback_due skip_faces face_images document_analysis
  then r = Ok true else r ≠ Ok true.
Proof.
  intros Hrun. split; [by eapply quiet_need_face_analysis |]. revert Hrun.
  unfold need_face_analysis, fallback_due, no_structured_info,
    lacks_personal_info, dict_get, bind.
  destruct skip_faces; simpl; [by intros [= <- _] |].
  destruct face_images as [| first others]; simpl; [by intros [= <- _] |].
  destruct (document_analysis !! "structured_info") as [v |]; simpl;
    [| by intros [= <- _]].
  destruct (truthy v) eqn:Hv; simpl; [| by intros [= <- _]].
  destruct v; simpl; try by intros [= <- _].
  destruct (d !! "personal_info") as [pi |]; simpl; [| by intros [= <- _]].
  destruct (truthy pi); simpl; by intros [= <- _].
Qed.

Lemma analyze_face_trace face acc st r st' :
  analyze_face U face acc st = (r, st') →
  trace st' = trace st ++ [EvAnalyzeImageContent face].
Proof.
  unfold analyze_face. destruct acc as [document_analysis api_available].
  unfold bind at 1. unfold call.
  destruct (analyze_image_content U face (world st)) as [[image_analysis | msg] w'];
    [| by intros [= _ <-]].
  intros Hrest.
  assert (quiet
            (if truthy image_analysis
             then bind (as_dict "get" image_analysis)
                    (fun image_dict =>
                       if truthy (dict_get image_dict "success" PNone)
                       then merge_image_analysis image_dict document_analysis api_available
                       else ret (document_analysis, api_available))
             else ret (document_analysis, api_available))) as Hq.
  { destruct (truthy image_analysis); [| apply quiet_ret].
    apply quiet_bind; [apply quiet_as_dict | intros image_dict].
    destruct (truthy _); [apply quiet_merge_image_analysis | apply quiet_ret]. }
  by apply Hq in Hrest as ->.
Qed.

(** The image-analysis calls of the fallback block. *)
Lemma face_fallback_calls skip_faces face_images document_analysis api_available
    st r st' :
  face_fallback U skip_faces face_images document_analysis api_available st = (r, st') →
  trace st' = trace st ++
    if fallback_due skip_faces face_images document_analysis
    then EvAnalyzeImageContent <$> take 1 face_images else [].
Proof.
  unfold face_fallback. unfold bind at 1.
  destruct (need_face_analysis _ _ _ st) as [needed st1] eqn:Hneed.
  apply need_face_analysis_spec in Hneed as [-> Hdue].
  destruct (fallback_due skip_faces face_images document_analysis).
  - subst needed. destruct face_images as [| first others].
    + simpl. intros [= _ <-]. by rewrite app_nil_r.
    + change (take 1 (first :: others)) with [first].
      cbn [for_each fmap list_fmap]. unfold bind at 1.
      destruct (analyze_face U first (document_analysis, api_available) st)
        as [[acc | msg] st2] eqn:Hface;
        apply analyze_face_trace in Hface; by intros [= _ <-].
  - rewrite app_nil_r.
    destruct needed as [[] | msg]; [done | |]; by intros [= _ <-].
Qed.

Lemma filter_image_analysis_calls (faces : list pyval) :
  filter (λ e, is_image_analysis_call e = true) (EvAnalyzeImageContent <$> faces)
  = EvAnalyzeImageContent <$> faces.
Proof.
  induction faces as [| face rest IH]; [done |].
  rewrite fmap_cons, filter_cons_True by done. by rewrite IH.
Qed.

(** C6. Once the text has been analyzed, [analyze_image_content] is called
    in a run of [process] exactly when face-skip is off, at least one face
    was detected, and the text analysis has no [structured_info] or one
    without [personal_info]; it is then called once, on the first face,
    however many faces there are. *)
Theorem face_fallback_runs_once_on_first_face file_path skip_faces w
    doc_type text_content face_images st1 document_analysis api_available st2 :
  gather U file_path skip_faces (initial w)
    = (Ok (doc_type, text_content, face_images), st1) →
  analyze_text U text_content st1 = (Ok (document_analysis, api_available), st2) →
  let calls :=
    filter (λ e, is_image_analysis_call e = true)
      (trace (process U bytes_decode file_path skip_faces (initial w)).2) in
  (fallback_due skip_faces face_images document_analysis = true →
     ∃ first, head face_images = Some first ∧
              calls = [EvAnalyzeImageContent first]) ∧
  (fallback_due skip_faces face_images document_analysis = false → calls = []).
Proof.
  intros Hgather Htext calls. subst calls.
  rewrite process_final_state.
  destruct (process_body U bytes_decode file_path skip_faces (initial w))
    as [r st'] eqn:Hrun. simpl.
  unfold process_body in Hrun. rewrite (bind_run _ _ _ _ _ Hgather) in Hrun.
  unfold analyze_and_assemble in Hrun. rewrite (bind_run _ _ _ _ _ Htext) in Hrun.
  apply (silent_gather is_image_analysis_call) in Hgather
    as (evs1 & Htr1 & Hf1); try done.
  apply (silent_analyze_text is_image_analysis_call) in Htext
    as (evs2 & Htr2 & Hf2); try done.
  assert (trace st' = trace st2 ++
            if fallback_due skip_faces face_images document_analysis
            then EvAnalyzeImageContent <$> take 1 face_images else []) as Htr3.
  { unfold bind in Hrun.
    destruct (face_fallback _ _ _ _ _ st2) as [[[info api] | msg] st3] eqn:Hfall;
      apply face_fallback_calls in Hfall.
    - by apply quiet_assemble in Hrun as ->.
    - by injection Hrun as _ <-. }
  rewrite Htr3, Htr2, Htr1. simpl.
  rewrite !filter_app, Hf1, Hf2. simpl.
  split; intros Hdue; rewrite Hdue; [| done].
  rewrite filter_image_analysis_calls.
  destruct face_images as [| first others].
  - unfold fallback_due in Hdue. simpl in Hdue.
    by rewrite andb_false_r in Hdue.
  - by exists first.
Qed.

(** *** Text analysis and the merge *)

Lemma analyze_text_no_text text_content st :
  text_content = None ∨ text_content = Some "" →
  analyze_text U text_content st = (Ok (∅, PBool true), st).
Proof. by intros [-> | ->]. Qed.

Lemma py_or_truthy a b : truthy a = true → py_or a b = a.
Proof. unfold py_or. by intros ->. Qed.

Lemma py_or_bool a b : py_or (PBool a) (PBool b) = PBool (a || b).
Proof. by destruct a. Qed.

Lemma truthy_dict_lookup (d : gmap string pyval) k v :
  d !! k = Some v → truthy (PDict d) = true.
Proof.
  intros Hk. simpl. apply negb_true_iff, Nat.eqb_neq.
  intros Hsize. apply map_size_empty_iff in Hsize. by simplify_map_eq.
Qed.

(** Lines 97-105 when the existing [structured_info] is a mapping or
    absent: the fields of the image analysis are laid over it. *)
Lemma merge_image_analysis_run image_analysis document_analysis api_available
    existing st :
  existing_fields document_analysis = Some existing →
  merge_image_analysis image_analysis document_analysis api_available st
  = (Ok (<["structured_info" := PDict (image_fields image_analysis ∪ existing)]>
           document_analysis,
         py_or api_available (dict_get image_analysis "api_available" (PBool false))),
     st).
Proof.
  unfold existing_fields, merge_image_analysis, image_fields, bind, dict_get.
  destruct (document_analysis !! "structured_info") as [v |] eqn:Hdoc.
  - destruct v; try done. intros [= <-].
    destruct (image_analysis !! "structured_info") as [[] |]; simpl;
      rewrite ?Hdoc; simpl; rewrite ?(left_id_L ∅ (∪)); try by rewrite insert_id.
    done.
  - intros [= <-].
    destruct (image_analysis !! "structured_info") as [[] |]; simpl;
      rewrite ?lookup_insert_eq; simpl; rewrite ?insert_insert_eq;
      by rewrite ?(left_id_L ∅ (∪)), ?(right_id_L ∅ (∪)).
Qed.

Lemma merge_image_analysis_keeps_truthy image_analysis document_analysis
    api_available st info api st' :
  merge_image_analysis image_analysis document_analysis api_available st
    = (Ok (info, api), st') →
  truthy api_available = true → api = api_available.
Proof.
  unfold merge_image_analysis. intros Hrun Htrue.
  apply bind_ok in Hrun as (d & st1 & _ & Hrun).
  injection Hrun as _ <- _. by apply py_or_truthy.
Qed.

Lemma analyze_face_keeps_truthy face document_analysis api_available st info api st' :
  analyze_face U face (document_analysis, api_available) st = (Ok (info, api), st') →
  truthy api_available = true → api = api_available.
Proof.
  unfold analyze_face. intros Hrun Htrue.
  apply bind_ok in Hrun as (image_analysis & st1 & _ & Hrun).
  destruct (truthy image_analysis); [| by injection Hrun as _ <- _].
  apply bind_ok in Hrun as (image_dict & st2 & _ & Hrun).
  destruct (truthy _); [| by injection Hrun as _ <- _].
  by eapply merge_image_analysis_keeps_truthy.
Qed.

Lemma face_fallback_keeps_truthy skip_faces face_images document_analysis
    api_available st info api st' :
  face_fallback U skip_faces face_images document_analysis api_available st
    = (Ok (info, api), st') →
  truthy api_available = true → api = api_available.
Proof.
  unfold face_fallback. intros Hrun Htrue.
  apply bind_ok in Hrun as (needed & st1 & _ & Hrun).
  destruct needed; [| by injection Hrun as _ <- _].
  destruct face_images as [| first others]; [by injection Hrun as _ <- _ |].
  change (take 1 (first :: others)) with [first] in Hrun. cbn [for_each] in Hrun.
  apply bind_ok in Hrun as ([info1 api1] & st2 & Hface & Hrun).
  injection Hrun as <- <- _. by eapply analyze_face_keeps_truthy.
Qed.

(** C9. When neither native extraction nor OCR produced any text,
    [analyze_document] is not called, and a successful record carries
    [api_available = True]. *)
Theorem no_text_defaults_to_available file_path skip_faces w
    doc_type text_content face_images st1 :
  gather U file_path skip_faces (initial w)
    = (Ok (doc_type, text_content, face_images), st1) →
  text_content = None ∨ text_content = Some "" →
  ∃ result st',
    process U bytes_decode file_path skip_faces (initial w) = (Ok result, st') ∧
    filter (λ e, is_text_analysis_call e = true) (trace st') = [] ∧
    (item result "success" = Some (PBool true) →
     ∃ info : gmap string pyval,
       item result "extracted_info" = Some (PDict info) ∧
       info !! "api_available" = Some (PBool true)).
Proof.
  intros Hgather Hempty.
  destruct (process_catches file_path skip_faces (initial w))
    as (result & st' & Hprocess & Hsame).
  exists result, st'. split; [done |].
  pose proof (process_final_state file_path skip_faces (initial w)) as Hfinal.
  rewrite Hprocess in Hfinal. simpl in Hfinal.
  split.
  { destruct (process_body U bytes_decode file_path skip_faces (initial w))
      as [r st''] eqn:Hrun. simpl in Hfinal. subst st''.
    unfold process_body in Hrun. rewrite (bind_run _ _ _ _ _ Hgather) in Hrun.
    unfold analyze_and_assemble in Hrun.
    rewrite (bind_run _ _ _ _ _ (analyze_text_no_text _ st1 Hempty)) in Hrun.
    apply (silent_gather is_text_analysis_call) in Hgather
      as (evs1 & Htr1 & Hf1); try done.
    eapply (silent_bind is_text_analysis_call) in Hrun as (evs2 & Htr2 & Hf2).
    - rewrite Htr2, Htr1. simpl. by rewrite filter_app, Hf1, Hf2.
    - by apply silent_face_fallback.
    - intros [info api]. apply quiet_silent, quiet_assemble. }
  intros Hsucc. apply process_ok, process_body_ok in Hprocess
    as (dt & text & faces & st1' & ti & ta & st2 & info & api & st3
        & Hg & Ht & Hf & Hasm); [| done].
  rewrite Hgather in Hg. injection Hg as <- <- <- <-.
  rewrite (analyze_text_no_text _ st1 Hempty) in Ht. injection Ht as <- <- <-.
  apply face_fallback_keeps_truthy in Hf as ->; [| done].
  apply assemble_ok in Hasm as (encoded & _ & _ & _ & Hinfo & _).
  eexists. split; [exact Hinfo |]. by simplify_map_eq.
Qed.

(** *** Complete runs *)

Lemma comprehension_encode_run face_images st :
  Forall (encodable bytes_decode) face_images →
  ∃ encoded,
    comprehension (encode_face bytes_decode) face_images st = (Ok encoded, st).
Proof.
  induction 1 as [| face rest Hface _ [encoded IH]]; simpl; [by eexists |].
  assert (∃ y, encode_face bytes_decode face st = (Ok y, st)) as (y & Hy).
  { destruct face; simpl; try by eexists.
    destruct Hface as (text & Hdec). unfold bind, lift. rewrite Hdec. by eexists. }
  rewrite (bind_run _ _ _ _ _ Hy), (bind_run _ _ _ _ _ IH). by eexists.
Qed.

Lemma assemble_run doc_type document_analysis api_available face_images st :
  Forall (encodable bytes_decode) face_images →
  ∃ result,
    assemble bytes_decode doc_type document_analysis api_available face_images st
    = (Ok result, st).
Proof.
  intros Henc. destruct (comprehension_encode_run face_images st Henc) as (encoded & Hrun).
  unfold assemble. rewrite (bind_run _ _ _ _ _ Hrun). by eexists.
Qed.

Lemma need_face_analysis_run skip_faces face_images document_analysis st :
  is_Some (existing_fields document_analysis) →
  need_face_analysis skip_faces face_images document_analysis st
  = (Ok (fallback_due skip_faces face_images document_analysis), st).
Proof.
  unfold need_face_analysis, fallback_due, no_structured_info,
    lacks_personal_info, existing_fields, dict_get, bind.
  intros [existing Hex]. revert Hex.
  destruct skip_faces; simpl; [done |].
  destruct face_images as [| first others]; simpl; [done |].
  destruct (document_analysis !! "structured_info") as [v |]; simpl; [| done].
  destruct v; try done; simpl. intros _.
  destruct (negb (size d =? 0)); simpl; [| done].
  destruct (d !! "personal_info") as [pi |]; simpl; [| done].
  by destruct (truthy pi).
Qed.

Lemma analyze_face_run face document_analysis api_available st image_analysis w'
    existing :
  analyze_image_content U face (world st) = (Ok (PDict image_analysis), w') →
  truthy (dict_get image_analysis "success" PNone) = true →
  existing_fields document_analysis = Some existing →
  analyze_face U face (document_analysis, api_available) st
  = (Ok (<["structured_info" := PDict (image_fields image_analysis ∪ existing)]>
           document_analysis,
         py_or api_available (dict_get image_analysis "api_available" (PBool false))),
     {| world := w'; trace := trace st ++ [EvAnalyzeImageContent face] |}).
Proof.
  intros Himage Hsuccess Hexisting.
  unfold analyze_face, bind, call. rewrite Himage.
  assert (truthy (PDict image_analysis) = true) as ->.
  { unfold dict_get in Hsuccess.
    destruct (image_analysis !! "success") as [v |] eqn:Hv; [| done].
    by eapply truthy_dict_lookup. }
  simpl as_dict. unfold ret at 1. rewrite Hsuccess.
  by apply merge_image_analysis_run.
Qed.

Lemma analyze_face_unavailable face document_analysis b st image_analysis w' :
  analyze_image_content U face (world st) = (Ok (PDict image_analysis), w') →
  image_analysis !! "api_available" = Some (PBool false) →
  is_Some (existing_fields document_analysis) →
  ∃ info st',
    analyze_face U face (document_analysis, PBool b) st
    = (Ok (info, PBool b), st').
Proof.
  intros Himage Hdown [existing Hexisting].
  destruct (truthy (dict_get image_analysis "success" PNone)) eqn:Hsuccess.
  - rewrite (analyze_face_run _ _ _ _ _ _ _ Himage Hsuccess Hexisting).
    unfold dict_get. rewrite Hdown. simpl.
    rewrite py_or_bool, orb_false_r. by eexists _, _.
  - unfold analyze_face, bind, call. rewrite Himage.
    rewrite (truthy_dict_lookup _ _ _ Hdown).
    simpl as_dict. unfold ret at 1. rewrite Hsuccess. by eexists _, _.
Qed.

(** C7. When the fallback runs and the image analysis succeeds, the
    returned [structured_info] holds every field of the image analysis with
    the image's value, every other existing field unchanged, and
    [api_available] is the [or] of the text-analysis and image-analysis
    outcomes. *)
Theorem image_analysis_is_merged file_path skip_faces w
    doc_type text_content face_images st1 document_analysis text_api st2
    first image_analysis w3 existing :
  gather U file_path skip_faces (initial w)
    = (Ok (doc_type, text_content, face_images), st1) →
  analyze_text U text_content st1 = (Ok (document_analysis, text_api), st2) →
  fallback_due skip_faces face_images document_analysis = true →
  head face_images = Some first →
  analyze_image_content U first (world st2) = (Ok (PDict image_analysis), w3) →
  truthy (dict_get image_analysis "success" PNone) = true →
  existing_fields document_analysis = Some existing →
  Forall (encodable bytes_decode) face_images →
  ∃ result st' (info merged : gmap string pyval),
    process U bytes_decode file_path skip_faces (initial w) = (Ok result, st') ∧
    item result "success" = Some (PBool true) ∧
    item result "extracted_info" = Some (PDict info) ∧
    info !! "structured_info" = Some (PDict merged) ∧
    (∀ k, merged !! k = match image_fields image_analysis !! k with
                        | Some v => Some v
                        | None => existing !! k
                        end) ∧
    info !! "api_available"
      = Some (py_or text_api (dict_get image_analysis "api_available" (PBool false))) ∧
    (∀ a b, text_api = PBool a →
            dict_get image_analysis "api_available" (PBool false) = PBool b →
            info !! "api_available" = Some (PBool (a || b))).
Proof.
  intros Hgather Htext Hdue Hfirst Himage Hsuccess Hexisting Hencodable.
  destruct face_images as [| first' others]; [done |].
  injection Hfirst as ->.
  pose proof (analyze_face_run first document_analysis text_api st2 _ _ _
                Himage Hsuccess Hexisting) as Hface.
  destruct (assemble_run doc_type
              (<["structured_info" := PDict (image_fields image_analysis ∪ existing)]>
                 document_analysis)
              (py_or text_api (dict_get image_analysis "api_available" (PBool false)))
              (first :: others)
              {| world := w3; trace := trace st2 ++ [EvAnalyzeImageContent first] |}
              Hencodable) as (result & Hassemble).
  assert (process_body U bytes_decode file_path skip_faces (initial w)
          = (Ok result,
             {| world := w3; trace := trace st2 ++ [EvAnalyzeImageContent first] |}))
    as Hbody.
  { unfold process_body. rewrite (bind_run _ _ _ _ _ Hgather).
    unfold analyze_and_assemble. rewrite (bind_run _ _ _ _ _ Htext).
    unfold face_fallback. rewrite bind_assoc.
    rewrite (bind_run _ _ _ _ _ (need_face_analysis_run _ _ _ _ (mk_is_Some _ _ Hexisting))).
    rewrite Hdue. change (take 1 (first :: others)) with [first].
    cbn [for_each]. rewrite !bind_assoc.
    rewrite (bind_run _ _ _ _ _ Hface). unfold bind at 1, ret at 1.
    exact Hassemble. }
  apply assemble_ok in Hassemble as (encoded & _ & Hsucc & _ & Hinfo & _).
  eexists result, _, _, _.
  split; [unfold process, try_except; by rewrite Hbody |].
  split; [done |]. split; [exact Hinfo |].
  split; [by simplify_map_eq |].
  split; [| split].
  - intros k. rewrite lookup_union.
    by destruct (image_fields image_analysis !! k), (existing !! k).
  - by simplify_map_eq.
  - intros a b -> ->. rewrite py_or_bool. by simplify_map_eq.
Qed.

Lemma face_fallback_unavailable skip_faces face_images document_analysis b st :
  is_Some (existing_fields document_analysis) →
  (fallback_due skip_faces face_images document_analysis = true →
   ∀ first, head face_images = Some first →
     ∃ image_analysis w3,
       analyze_image_content U first (world st) = (Ok (PDict image_analysis), w3) ∧
       image_analysis !! "api_available" = Some (PBool false)) →
  ∃ info st',
    face_fallback U skip_faces face_images document_analysis (PBool b) st
    = (Ok (info, PBool b), st').
Proof.
  intros Hexisting Hdown. unfold face_fallback.
  rewrite (bind_run _ _ _ _ _ (need_face_analysis_run _ _ _ _ Hexisting)).
  destruct (fallback_due _ _ _); [| by eexists _, _].
  destruct face_images as [| first others]; [by eexists _, _ |].
  change (take 1 (first :: others)) with [first]. cbn [for_each].
  destruct (Hdown eq_refl first eq_refl) as (image_analysis & w3 & Himage & Hd).
  destruct (analyze_face_unavailable first document_analysis b st image_analysis w3
              Himage Hd Hexisting) as (info & st' & Hface).
  rewrite (bind_run _ _ _ _ _ Hface). by eexists _, _.
Qed.

Lemma analyze_text_ok text_content st document_analysis api_available st' :
  analyze_text U text_content st = (Ok (document_analysis, api_available), st') →
  ((text_content = None ∨ text_content = Some "") ∧
   document_analysis = ∅ ∧ api_available = PBool true) ∨
  (∃ text, text_content = Some text ∧ text ≠ "" ∧
           api_available = dict_get document_analysis "api_available" (PBool false)).
Proof.
  unfold analyze_text.
  destruct text_content as [[| c rest] |]; simpl.
  - intros [= <- <- _]. left. split; [by right | done].
  - intros Hrun. right. exists (String c rest). split; [done |]. split; [done |].
    apply bind_ok in Hrun as (result & st1 & _ & Hrun).
    apply bind_ok in Hrun as (d & st2 & _ & Hrun). by injection Hrun as <- <- _.
  - intros [= <- <- _]. left. split; [by left | done].
Qed.

(** C3, as amended. When gathering completes, the face payloads decode and
    every analyzer call made in the run reports unavailability without
    raising (a dictionary with [api_available = False], the text analysis
    with a [structured_info] that is a mapping or absent), [process]
    returns a successful record: unavailability alone is never fatal.  Its
    [extracted_info.api_available] is [False] when the gathered text is
    non-empty, and [True] when there is no text. *)
Theorem unavailable_analyzers_are_not_fatal file_path skip_faces w
    doc_type text_content face_images st1 document_analysis text_api st2 :
  gather U file_path skip_faces (initial w)
    = (Ok (doc_type, text_content, face_images), st1) →
  Forall (encodable bytes_decode) face_images →
  analyze_text U text_content st1 = (Ok (document_analysis, text_api), st2) →
  (∀ text, text_content = Some text → text ≠ "" →
     document_analysis !! "api_available" = Some (PBool false) ∧
     is_Some (existing_fields document_analysis)) →
  (fallback_due skip_faces face_images document_analysis = true →
   ∀ first, head face_images = Some first →
     ∃ image_analysis w3,
       analyze_image_content U first (world st2) = (Ok (PDict image_analysis), w3) ∧
       image_analysis !! "api_available" = Some (PBool false)) →
  ∃ result st' (info : gmap string pyval),
    process U bytes_decode file_path skip_faces (initial w) = (Ok result, st') ∧
    item result "success" = Some (PBool true) ∧
    item result "extracted_info" = Some (PDict info) ∧
    (∀ text, text_content = Some text → text ≠ "" →
       info !! "api_available" = Some (PBool false)) ∧
    (text_content = None ∨ text_content = Some "" →
       info !! "api_available" = Some (PBool true)).
Proof.
  intros Hgather Hencodable Hanalysis Htext_down Himage_down.
  assert (∃ b, text_api = PBool b ∧
               is_Some (existing_fields document_analysis) ∧
               ((∃ text, text_content = Some text ∧ text ≠ "") → b = false) ∧
               (text_content = None ∨ text_content = Some "" → b = true))
    as (b & -> & Hexisting & Hfalse & Htrue).
  { destruct (analyze_text_ok _ _ _ _ _ Hanalysis)
      as [(Hempty & -> & ->) | (text & -> & Htext & ->)].
    - exists true. split; [done |]. split; [by exists ∅ |]. split; [| done].
      intros (text & -> & Htext). destruct Hempty as [? | [= ->]]; done.
    - destruct (Htext_down text eq_refl Htext) as [Hdown Hexisting].
      exists false. unfold dict_get. rewrite Hdown. split; [done |].
      split; [done |]. split; [done |]. intros [? | [= ->]]; done. }
  destruct (face_fallback_unavailable skip_faces face_images document_analysis b st2
              Hexisting Himage_down) as (info & st3 & Hfall).
  destruct (assemble_run doc_type info (PBool b) face_images st3 Hencodable)
    as (result & Hassemble).
  assert (process_body U bytes_decode file_path skip_faces (initial w)
          = (Ok result, st3)) as Hbody.
  { unfold process_body. rewrite (bind_run _ _ _ _ _ Hgather).
    unfold analyze_and_assemble. rewrite (bind_run _ _ _ _ _ Hanalysis).
    by rewrite (bind_run _ _ _ _ _ Hfall). }
  apply assemble_ok in Hassemble as (encoded & _ & Hsucc & _ & Hinfo & _).
  eexists result, _, _.
  split; [unfold process, try_except; by rewrite Hbody |].
  split; [done |]. split; [exact Hinfo |]. split.
  - intros text Hsome Htext. rewrite Hfalse by eauto. by simplify_map_eq.
  - intros Hempty. rewrite (Htrue Hempty). by simplify_map_eq.
Qed.

End PipelineProperties.

(** ** Which exceptions become a failure record *)

Section EscapeProperties.

Context {World : Type}.
Variable R : raw_utils World.
Variable bytes_decode : list byte -> outcome string.

Implicit Types (st : state (World * option thrown)).

Lemma halts_quiet {A} (m : M (World * option thrown) A) : quiet m → halts_on_throw m.
Proof. intros Hq st r st' Hclean Hrun. apply Hq in Hrun as ->. by left. Qed.

Lemma halts_bind {A B} (m : M (World * option thrown) A)
    (k : A → M (World * option thrown) B) :
  halts_on_throw m → (∀ a, halts_on_throw (k a)) → halts_on_throw (bind m k).
Proof.
  intros Hm Hk st r st' Hclean Hrun. unfold bind in Hrun.
  destruct (m st) as [[a | msg] st1] eqn:Em.
  - destruct (Hm _ _ _ Hclean Em) as [Hclean1 | (e & _ & [=])].
    by eapply Hk.
  - injection Hrun as <- <-.
    destruct (Hm _ _ _ Hclean Em) as [Hclean1 | (e & Hsome & [= ->])]; [by left |].
    right. by exists e.
Qed.

Lemma halts_call {A} ev (f : responder World A) : halts_on_throw (call ev (answering f)).
Proof.
  intros st r st' Hclean Hrun. unfold call, answering, in_flight in *.
  destruct (f (world st).1) as [[a | e] w'].
  - injection Hrun as <- <-. by left.
  - injection Hrun as <- <-. right. by exists e.
Qed.

Lemma halts_for_each {A S} (body : A → S → M (World * option thrown) S) l acc :
  (∀ a s, halts_on_throw (body a s)) → halts_on_throw (for_each l body acc).
Proof.
  intros Hbody. revert acc. induction l as [| x rest IH]; intros acc; simpl.
  - apply halts_quiet, quiet_ret.
  - apply halts_bind; [apply Hbody | intros acc'; apply IH].
Qed.

Lemma halts_process_body file_path skip_faces :
  halts_on_throw (process_body (with_escapes R) bytes_decode file_path skip_faces).
Proof.
  unfold process_body. apply halts_bind.
  - unfold gather. apply halts_bind.
    + unfold read_text.
      apply halts_bind; [apply halts_call | intros doc_type].
      apply halts_bind; [apply halts_call | intros text_content].
      destruct (_ && _); [| apply halts_quiet, quiet_ret].
      apply halts_bind; [apply halts_call | intros; apply halts_quiet, quiet_ret].
    + intros [doc_type text_content].
      apply halts_bind; [| intros; apply halts_quiet, quiet_ret].
      unfold collect_faces.
      apply halts_bind; [apply halts_call | intros images].
      destruct (negb skip_faces); [| apply halts_quiet, quiet_ret].
      apply halts_for_each. intros img face_images.
      apply halts_bind; [apply halts_call | intros; apply halts_quiet, quiet_ret].
  - intros [[doc_type text_content] face_images]. unfold analyze_and_assemble.
    apply halts_bind.
    + unfold analyze_text.
      destruct text_content as [text |]; [| apply halts_quiet, quiet_ret].
      destruct (truthy (PStr text)); [| apply halts_quiet, quiet_ret].
      apply halts_bind; [apply halts_call | intros result].
      apply halts_quiet, quiet_bind; [apply quiet_as_dict | intros; apply quiet_ret].
    + intros [text_info text_api]. apply halts_bind.
      * unfold face_fallback.
        apply halts_bind; [apply halts_quiet, quiet_need_face_analysis | intros needed].
        destruct needed; [| apply halts_quiet, quiet_ret].
        apply halts_for_each. intros face [info api]. unfold analyze_face.
        apply halts_bind; [apply halts_call | intros image_analysis].
        apply halts_quiet.
        destruct (truthy image_analysis); [| apply quiet_ret].
        apply quiet_bind; [apply quiet_as_dict | intros image_dict].
        destruct (truthy _); [apply quiet_merge_image_analysis | apply quiet_ret].
      * intros [info api]. apply halts_quiet, quiet_assemble.
Qed.

(** The records that reach the caller are those of [process]. *)
Lemma process_escaping_returned file_path skip_faces st result st' :
  process_escaping R bytes_decode file_path skip_faces st = (Returned result, st') →
  process (with_escapes R) bytes_decode file_path skip_faces st = (Ok result, st').
Proof.
  unfold process_escaping, process, try_except, ret.
  destruct (process_body (with_escapes R) bytes_decode file_path skip_faces st)
    as [[body_result | msg] st1]; [congruence |].
  destruct (in_flight st1) as [e |]; [destruct (converted e) |]; congruence.
Qed.

(** C2, as amended. When a collaborator throws during a run of [process],
    [process] returns [{success: False, error: str(e)}] if what was thrown
    is an instance of [Exception] whose [str] returns; an exception that is
    not an instance of [Exception], or whose [__str__] raises, leaves
    [process] for the caller, and no record is returned.  When no
    collaborator throws, [process] returns a record. *)
Theorem only_ordinary_exceptions_are_converted file_path skip_faces st final st' :
  in_flight st = None →
  process_escaping R bytes_decode file_path skip_faces st = (final, st') →
  match in_flight st' with
  | Some (Ordinary msg) => final = Returned (failure_record msg)
  | Some Unprintable => final = Escaped Unprintable
  | Some (Outside name) => final = Escaped (Outside name)
  | None => ∃ result, final = Returned result
  end.
Proof.
  intros Hclean. unfold process_escaping.
  destruct (process_body (with_escapes R) bytes_decode file_path skip_faces st)
    as [[result | msg] st1] eqn:Hbody;
    destruct (halts_process_body _ _ _ _ _ Hclean Hbody)
      as [Hnone | (e & Hsome & Hraise)].
  - intros [= <- <-]. rewrite Hnone. by eexists.
  - discriminate.
  - rewrite Hnone. intros [= <- <-]. rewrite Hnone. by eexists.
  - injection Hraise as ->. rewrite Hsome.
    destruct e; simpl; intros [= <- <-]; by rewrite Hsome.
Qed.

End EscapeProperties.

(** ** The theorems at work on the test doubles *)

Import Stubs.

(** C1 on the identity card: three faces, [face_count = 3]. *)
Lemma face_count_is_length_witness :
  item (result_of (run id_card "card.jpg" false)) "success" = Some (PBool true) ∧
  ∃ faces,
    item (result_of (run id_card "card.jpg" false)) "face_images" = Some (PList faces) ∧
    item (result_of (run id_card "card.jpg" false)) "face_count"
      = Some (PInt (Z.of_nat (length faces))).
Proof.
  assert (item (result_of (run id_card "card.jpg" false)) "success"
          = Some (PBool true)) as Hsucc by (vm_compute; reflexivity).
  split; [exact Hsucc |].
  apply (face_count_is_length (stub id_card) ascii_decode "card.jpg" false
           (initial tt) _ (run id_card "card.jpg" false).2);
    [vm_compute; reflexivity | exact Hsucc].
Defined.

(** C2 as amended, when the remote text analyzer fails with an ordinary
    exception: the failure record carries its message. *)
Lemma only_ordinary_exceptions_are_converted_witness :
  (process_escaping (EscapeStubs.analysis_leaves_with (Ordinary "connection refused"))
     ascii_decode "letter.docx" false EscapeStubs.fresh).1
  = Returned (failure_record "connection refused").
Proof.
  exact (only_ordinary_exceptions_are_converted
           (EscapeStubs.analysis_leaves_with (Ordinary "connection refused"))
           ascii_decode "letter.docx" false EscapeStubs.fresh
           (process_escaping
              (EscapeStubs.analysis_leaves_with (Ordinary "connection refused"))
              ascii_decode "letter.docx" false EscapeStubs.fresh).1
           (process_escaping
              (EscapeStubs.analysis_leaves_with (Ordinary "connection refused"))
              ascii_decode "letter.docx" false EscapeStubs.fresh).2
           eq_refl eq_refl).
Defined.

(** C2 as stated fails when a step is interrupted: the text analyzer
    raises [KeyboardInterrupt], which is an exception, and [process] returns
    no record: the exception reaches the caller. *)
Lemma keyboard_interrupt_escapes :
  raw_analyze_document
    (EscapeStubs.analysis_leaves_with (Outside "KeyboardInterrupt")) "Name: Jane Doe" tt
  = (Throws (Outside "KeyboardInterrupt"), tt) ∧
  (process_escaping (EscapeStubs.analysis_leaves_with (Outside "KeyboardInterrupt"))
     ascii_decode "letter.docx" false EscapeStubs.fresh).1
  = Escaped (Outside "KeyboardInterrupt") ∧
  ∀ result,
    (process_escaping (EscapeStubs.analysis_leaves_with (Outside "KeyboardInterrupt"))
       ascii_decode "letter.docx" false EscapeStubs.fresh).1
    ≠ Returned result.
Proof.
  split; [reflexivity |]. split; [vm_compute; reflexivity |].
  intros result. vm_compute. discriminate.
Qed.

(** C4 on the card: the type is [image] and the native text has ten
    characters, so OCR is called. *)
Lemma ocr_invoked_iff_witness :
  ∃ e, e ∈ trace (run id_card "card.jpg" false).2 ∧ is_ocr_call e = true.
Proof.
  apply (ocr_invoked_iff (stub id_card) ascii_decode "card.jpg" false tt).
  exists "image", tt, (Some ten_chars), tt.
  split; [reflexivity |]. split; [reflexivity |].
  split; [by left |]. right; right. exists ten_chars. split; [reflexivity |].
  simpl. lia.
Defined.

(** C5 on the card: ten native characters, a blank line, then "ABC". *)
Lemma ocr_text_is_appended_witness :
  ∃ combined st',
    read_text (stub id_card) "card.jpg" (initial tt) = (Ok ("image", combined), st') ∧
    (∀ text, Some ten_chars = Some text → text ≠ "" →
       combined = Some (text +:+ newline +:+ newline +:+ "ABC")) ∧
    (Some ten_chars = None ∨ Some ten_chars = Some "" → combined = Some "ABC").
Proof.
  apply (ocr_text_is_appended (stub id_card) "card.jpg" (initial tt)
           "image" tt (Some ten_chars) tt "ABC" tt).
  - reflexivity.
  - reflexivity.
  - split; [by left |]. right; right. exists ten_chars. split; [reflexivity |].
    simpl. lia.
  - reflexivity.
  - discriminate.
Defined.

(** C6 on the card: three faces, one image analysis, on the first. *)
Lemma face_fallback_runs_once_on_first_face_witness :
  length three_faces = 3 ∧
  filter (λ e, is_image_analysis_call e = true)
    (trace (run id_card "card.jpg" false).2)
  = [EvAnalyzeImageContent face_a].
Proof.
  split; [reflexivity |].
  destruct (face_fallback_runs_once_on_first_face (stub id_card) ascii_decode
              "card.jpg" false tt "image" (Some card_text) three_faces
              (gather (stub id_card) "card.jpg" false (initial tt)).2
              card_text_info (PBool true)
              (analyze_text (stub id_card) (Some card_text)
                 (gather (stub id_card) "card.jpg" false (initial tt)).2).2)
    as [Hdue _]; [vm_compute; reflexivity | vm_compute; reflexivity |].
  destruct Hdue as (first & Hfirst & Hcalls); [vm_compute; reflexivity |].
  injection Hfirst as <-. exact Hcalls.
Defined.

(** C7 on the card: [name] comes from the image, [document] stays, and
    [gender] is added. *)
Lemma image_analysis_is_merged_witness :
  ∃ result st' (info merged : gmap string pyval),
    run id_card "card.jpg" false = (Ok result, st') ∧
    item result "extracted_info" = Some (PDict info) ∧
    info !! "structured_info" = Some (PDict merged) ∧
    merged !! "name" = Some (PStr "from image") ∧
    merged !! "document" = Some (PStr "card") ∧
    merged !! "gender" = Some (PStr "F") ∧
    info !! "api_available" = Some (PBool true).
Proof.
  destruct (image_analysis_is_merged (stub id_card) ascii_decode
              "card.jpg" false tt "image" (Some card_text) three_faces
              (gather (stub id_card) "card.jpg" false (initial tt)).2
              card_text_info (PBool true)
              (analyze_text (stub id_card) (Some card_text)
                 (gather (stub id_card) "card.jpg" false (initial tt)).2).2
              face_a card_image_info tt
              (<["document" := PStr "card"]> (<["name" := PStr "from text"]> ∅)))
    as (result & st' & info & merged & Hrun & _ & Hinfo & Hsi & Hmerged & Hapi & _).
  - vm_compute; reflexivity.
  - vm_compute; reflexivity.
  - vm_compute; reflexivity.
  - reflexivity.
  - reflexivity.
  - vm_compute; reflexivity.
  - vm_compute; reflexivity.
  - repeat constructor; simpl; by eexists.
  - exists result, st', info, merged.
    split; [exact Hrun |]. split; [exact Hinfo |]. split; [exact Hsi |].
    split; [rewrite Hmerged; vm_compute; reflexivity |].
    split; [rewrite Hmerged; vm_compute; reflexivity |].
    split; [rewrite Hmerged; vm_compute; reflexivity |].
    exact Hapi.
Defined.

(** C8 on the card with [skip_faces]: three images, no faces. *)
Lemma skip_faces_gives_no_faces_witness :
  item (result_of (run id_card "card.jpg" true)) "success" = Some (PBool true) ∧
  item (result_of (run id_card "card.jpg" true)) "face_images" = Some (PList []) ∧
  item (result_of (run id_card "card.jpg" true)) "face_count" = Some (PInt 0).
Proof.
  assert (item (result_of (run id_card "card.jpg" true)) "success"
          = Some (PBool true)) as Hsucc by (vm_compute; reflexivity).
  split; [exact Hsucc |].
  apply (skip_faces_gives_no_faces (stub id_card) ascii_decode "card.jpg"
           (initial tt) _ (run id_card "card.jpg" true).2);
    [vm_compute; reflexivity | exact Hsucc].
Defined.

(** C9 on the bare photograph: no text, one face, analyzer down. *)
Lemma no_text_defaults_to_available_witness :
  ∃ result st',
    run bare_photo "photo.jpg" false = (Ok result, st') ∧
    filter (λ e, is_text_analysis_call e = true) (trace st') = [] ∧
    (item result "success" = Some (PBool true) →
     ∃ info : gmap string pyval,
       item result "extracted_info" = Some (PDict info) ∧
       info !! "api_available" = Some (PBool true)).
Proof.
  apply (no_text_defaults_to_available (stub bare_photo) ascii_decode
           "photo.jpg" false tt "image" None [face_a]
           (gather (stub bare_photo) "photo.jpg" false (initial tt)).2).
  - vm_compute; reflexivity.
  - by left.
Defined.

(** C10 on the card when the image analyzer raises: the type, the text
    analysis and three faces had been computed, none is returned. *)
Lemma failure_record_has_two_keys_witness :
  ∃ d : gmap string pyval,
    run id_card_vision_crash "card.jpg" false
    = (Ok (PDict d), (run id_card_vision_crash "card.jpg" false).2) ∧
    dom d = {[ "success"; "error" ]} ∧
    d !! "document_type" = None ∧ d !! "extracted_info" = None ∧
    d !! "face_count" = None ∧ d !! "face_images" = None.
Proof.
  apply (failure_record_has_two_keys (stub id_card_vision_crash) ascii_decode
           "card.jpg" false (initial tt) "connection reset").
  vm_compute; reflexivity.
Defined.

(** C3 as amended, on the card while the service is down (text present,
    [api_available = False]) and on the bare photograph (no text,
    [api_available = True]). *)
Lemma unavailable_analyzers_are_not_fatal_witness :
  (∃ result st' (info : gmap string pyval),
     run id_card_offline "card.jpg" false = (Ok result, st') ∧
     item result "success" = Some (PBool true) ∧
     item result "extracted_info" = Some (PDict info) ∧
     info !! "api_available" = Some (PBool false)) ∧
  (∃ result st' (info : gmap string pyval),
     run bare_photo "photo.jpg" false = (Ok result, st') ∧
     item result "success" = Some (PBool true) ∧
     item result "extracted_info" = Some (PDict info) ∧
     info !! "api_available" = Some (PBool true)).
Proof.
  split.
  - destruct (unavailable_analyzers_are_not_fatal (stub id_card_offline) ascii_decode
                "card.jpg" false tt "image" (Some card_text) three_faces
                (gather (stub id_card_offline) "card.jpg" false (initial tt)).2
                (<["api_available" := PBool false]> ∅) (PBool false)
                (analyze_text (stub id_card_offline) (Some card_text)
                   (gather (stub id_card_offline) "card.jpg" false (initial tt)).2).2)
      as (result & st' & info & Hrun & Hsucc & Hinfo & Hfalse & _).
    + vm_compute; reflexivity.
    + repeat constructor; simpl; by eexists.
    + vm_compute; reflexivity.
    + intros text _ _. split; [vm_compute; reflexivity |].
      exists ∅. vm_compute; reflexivity.
    + intros _ first Hfirst. injection Hfirst as <-.
      exists (<["api_available" := PBool false]> ∅), tt.
      split; vm_compute; reflexivity.
    + exists result, st', info.
      split; [exact Hrun |]. split; [exact Hsucc |]. split; [exact Hinfo |].
      apply (Hfalse card_text); [reflexivity | discriminate].
  - destruct (unavailable_analyzers_are_not_fatal (stub bare_photo) ascii_decode
                "photo.jpg" false tt "image" None [face_a]
                (gather (stub bare_photo) "photo.jpg" false (initial tt)).2
                ∅ (PBool true)
                (gather (stub bare_photo) "photo.jpg" false (initial tt)).2)
      as (result & st' & info & Hrun & Hsucc & Hinfo & _ & Htrue).
    + vm_compute; reflexivity.
    + repeat constructor; simpl; by eexists.
    + vm_compute; reflexivity.
    + intros text Hnone. discriminate Hnone.
    + intros _ first Hfirst. injection Hfirst as <-.
      exists (<["api_available" := PBool false]> ∅), tt.
      split; vm_compute; reflexivity.
    + exists result, st', info.
      split; [exact Hrun |]. split; [exact Hsucc |]. split; [exact Hinfo |].
      apply Htrue. by left.
Defined.

(** C3 as stated fails on a document without text: every step returns,
    both analyzers report unavailability, the record is successful, and
    its [api_available] is [True]. *)
Lemma unavailable_analyzers_without_text :
  analyzers_unavailable (stub blank_docx_offline) ∧
  ∃ result (info : gmap string pyval),
    (run blank_docx_offline "blank.docx" false).1 = Ok result ∧
    item result "success" = Some (PBool true) ∧
    item result "extracted_info" = Some (PDict info) ∧
    info !! "api_available" = Some (PBool true) ∧
    info !! "api_available" ≠ Some (PBool false).
Proof.
  split.
  - split; intros; eexists _, _; (split; [reflexivity |]);
      eexists; (split; [reflexivity |]); vm_compute; reflexivity.
  - exists (result_of (run blank_docx_offline "blank.docx" false)).
    exists (<["api_available" := PBool true]> ∅).
    repeat split; try (vm_compute; reflexivity).
    rewrite lookup_insert_eq. discriminate.
Qed.


(** ** Further properties of [process] *)

Section RunProperties.

Context {World : Type}.
Variable U : utils World.
Variable bytes_decode : list byte -> outcome string.

Implicit Types (st : state World) (evs : list event).

(** *** Forward order of the calls *)

Lemma staged_quiet {A} lo hi (m : M World A) : quiet m → staged lo hi m.
Proof.
  intros Hq st r st' Hrun. apply Hq in Hrun as ->.
  exists []. rewrite app_nil_r. repeat split; constructor.
Qed.

Lemma staged_call {A} lo hi ev (f : external World A) :
  lo ≤ stage ev ≤ hi → staged lo hi (call ev f).
Proof.
  intros Hs st r st' Hrun. unfold call in Hrun.
  destruct (f (world st)) as [r0 w']. injection Hrun as _ <-.
  exists [ev]. split; [done |]. split; [repeat constructor | by constructor].
Qed.

Lemma staged_bind {A B} lo mid hi (m : M World A) (k : A → M World B) :
  lo ≤ S mid → mid ≤ hi →
  staged lo mid m → (∀ a, staged (S mid) hi (k a)) → staged lo hi (bind m k).
Proof.
  intros Hlo Hhi Hm Hk st r st' Hrun. unfold bind in Hrun.
  destruct (m st) as [[a | msg] st1] eqn:Em;
    apply Hm in Em as (evs1 & Htr1 & Hs1 & Hr1).
  - apply Hk in Hrun as (evs2 & Htr2 & Hs2 & Hr2).
    exists (evs1 ++ evs2). rewrite Htr2, Htr1, <- app_assoc. split; [done |]. split.
    + apply StronglySorted_app_2; [| done | done]. intros e1 e2 He1 He2.
      rewrite Forall_forall in Hr1, Hr2.
      specialize (Hr1 _ He1). specialize (Hr2 _ He2). left. lia.
    + apply Forall_app. split; (eapply Forall_impl; [eassumption |]);
        simpl; intros; lia.
  - injection Hrun as _ <-. exists evs1. split; [done |]. split; [done |].
    eapply Forall_impl; [eassumption |]. simpl; intros; lia.
Qed.

Lemma staged_bind_loop {A B} (m : M World A) (k : A → M World B) :
  staged 4 4 m → (∀ a, staged 4 4 (k a)) → staged 4 4 (bind m k).
Proof.
  intros Hm Hk st r st' Hrun. unfold bind in Hrun.
  destruct (m st) as [[a | msg] st1] eqn:Em;
    apply Hm in Em as (evs1 & Htr1 & Hs1 & Hr1).
  - apply Hk in Hrun as (evs2 & Htr2 & Hs2 & Hr2).
    exists (evs1 ++ evs2). rewrite Htr2, Htr1, <- app_assoc. split; [done |]. split.
    + apply StronglySorted_app_2; [| done | done]. intros e1 e2 He1 He2.
      rewrite Forall_forall in Hr1, Hr2.
      specialize (Hr1 _ He1). specialize (Hr2 _ He2). right. lia.
    + by apply Forall_app.
  - injection Hrun as _ <-. by exists evs1.
Qed.

Lemma staged_bind_quiet_l {A B} lo hi (m : M World A) (k : A → M World B) :
  quiet m → (∀ a, staged lo hi (k a)) → staged lo hi (bind m k).
Proof.
  intros Hm Hk st r st' Hrun. unfold bind in Hrun.
  destruct (m st) as [[a | msg] st1] eqn:Em; apply Hm in Em as ->.
  - by apply Hk in Hrun.
  - injection Hrun as _ <-. exists []. rewrite app_nil_r. repeat split; constructor.
Qed.

Lemma staged_bind_quiet_r {A B} lo hi (m : M World A) (k : A → M World B) :
  staged lo hi m → (∀ a, quiet (k a)) → staged lo hi (bind m k).
Proof.
  intros Hm Hk st r st' Hrun. unfold bind in Hrun.
  destruct (m st) as [[a | msg] st1] eqn:Em; apply Hm in Em as Hevs.
  - by apply Hk in Hrun as ->.
  - by injection Hrun as _ <-.
Qed.

Lemma staged_read_text file_path : staged 0 2 (read_text U file_path).
Proof.
  unfold read_text.
  apply (staged_bind 0 0 2); [lia | lia | apply staged_call; simpl; lia | intros doc_type].
  apply (staged_bind 1 1 2); [lia | lia | apply staged_call; simpl; lia | intros text].
  destruct (_ && _); [| apply staged_quiet, quiet_ret].
  apply staged_bind_quiet_r; [apply staged_call; simpl; lia | intros; apply quiet_ret].
Qed.

Lemma staged_collect_faces file_path doc_type skip_faces :
  staged 3 4 (collect_faces U file_path doc_type skip_faces).
Proof.
  unfold collect_faces.
  apply (staged_bind 3 3 4); [lia | lia | apply staged_call; simpl; lia | intros images].
  destruct (negb skip_faces); [| apply staged_quiet, quiet_ret].
  generalize (@nil pyval) as acc.
  induction images as [| img rest IH]; intros acc; simpl.
  - apply staged_quiet, quiet_ret.
  - apply staged_bind_loop; [| intros acc'; apply IH].
    apply staged_bind_quiet_r; [apply staged_call; simpl; lia | intros; apply quiet_ret].
Qed.

Lemma staged_gather file_path skip_faces : staged 0 4 (gather U file_path skip_faces).
Proof.
  unfold gather.
  apply (staged_bind 0 2 4); [lia | lia | apply staged_read_text |].
  intros [doc_type text_content].
  apply staged_bind_quiet_r; [apply staged_collect_faces | intros; apply quiet_ret].
Qed.

Lemma staged_analyze_text text_content : staged 5 5 (analyze_text U text_content).
Proof.
  unfold analyze_text.
  destruct text_content as [text |]; [| apply staged_quiet, quiet_ret].
  destruct (truthy (PStr text)); [| apply staged_quiet, quiet_ret].
  apply staged_bind_quiet_r; [apply staged_call; simpl; lia | intros result].
  apply quiet_bind; [apply quiet_as_dict | intros; apply quiet_ret].
Qed.

Lemma staged_analyze_face face acc : staged 6 6 (analyze_face U face acc).
Proof.
  unfold analyze_face. destruct acc as [document_analysis api_available].
  apply staged_bind_quiet_r; [apply staged_call; simpl; lia | intros image_analysis].
  destruct (truthy image_analysis); [| apply quiet_ret].
  apply quiet_bind; [apply quiet_as_dict | intros image_dict].
  destruct (truthy _); [apply quiet_merge_image_analysis | apply quiet_ret].
Qed.

Lemma staged_face_fallback skip_faces face_images document_analysis api_available :
  staged 6 6 (face_fallback U skip_faces face_images document_analysis api_available).
Proof.
  unfold face_fallback.
  apply staged_bind_quiet_l; [apply quiet_need_face_analysis | intros needed].
  destruct needed; [| apply staged_quiet, quiet_ret].
  destruct face_images as [| first others]; [apply staged_quiet, quiet_ret |].
  change (take 1 (first :: others)) with [first]. cbn [for_each].
  apply staged_bind_quiet_r; [apply staged_analyze_face | intros; apply quiet_ret].
Qed.

Lemma staged_process file_path skip_faces :
  staged 0 6 (process U bytes_decode file_path skip_faces).
Proof.
  intros st r st' Hrun.
  assert (staged 0 6 (process_body U bytes_decode file_path skip_faces)) as Hbody.
  { unfold process_body.
    apply (staged_bind 0 4 6); [lia | lia | apply staged_gather |].
    intros [[doc_type text_content] face_images]. unfold analyze_and_assemble.
    apply (staged_bind 5 5 6); [lia | lia | apply staged_analyze_text |].
    intros [text_info text_api].
    apply staged_bind_quiet_r; [apply staged_face_fallback |].
    intros [info api]. apply quiet_assemble. }
  unfold process, try_except in Hrun.
  destruct (process_body U bytes_decode file_path skip_faces st)
    as [[result | msg] st1] eqn:Hb; apply Hbody in Hb; by injection Hrun as _ <-.
Qed.

Lemma once_when_staged evs k :
  StronglySorted follows evs → k ≠ 4 →
  length (filter (λ e, stage e = k) evs) ≤ 1.
Proof.
  intros Hsorted Hk. induction Hsorted as [| e evs Hsorted IH Hafter]; [simpl; lia |].
  rewrite filter_cons. case_decide as He; [| done].
  assert (filter (λ e, stage e = k) evs = []) as ->; [| simpl; lia].
  clear IH Hsorted. induction Hafter as [| e' evs' [Hlt | [H4 _]] _ IH']; [done | | lia].
  rewrite filter_cons_False by lia. done.
Qed.

(** X1. The collaborators are called in the order of the lines of
    [process]: in the trace of any run, an earlier call belongs to an
    earlier line than a later one, or both are face detections. *)
Theorem calls_go_forward file_path skip_faces w :
  StronglySorted follows
    (trace (process U bytes_decode file_path skip_faces (initial w)).2).
Proof.
  destruct (process U bytes_decode file_path skip_faces (initial w))
    as [r st'] eqn:Hrun.
  apply staged_process in Hrun as (evs & Htr & Hsorted & _).
  simpl. by rewrite Htr.
Qed.

(** X2. In any run every collaborator other than [extract_faces] is called
    at most once; in particular no more than one face image is ever sent to
    [analyze_image_content]. *)
Theorem collaborators_called_at_most_once file_path skip_faces w k :
  k ≠ 4 →
  length (filter (λ e, stage e = k)
            (trace (process U bytes_decode file_path skip_faces (initial w)).2)) ≤ 1.
Proof.
  intros Hk.
  destruct (process U bytes_decode file_path skip_faces (initial w))
    as [r st'] eqn:Hrun.
  apply staged_process in Hrun as (evs & Htr & Hsorted & _).
  simpl. rewrite Htr. by apply once_when_staged.
Qed.

(** *** Shape of the returned record *)

Lemma assemble_keys doc_type document_analysis api_available face_images st result st' :
  assemble bytes_decode doc_type document_analysis api_available face_images st
    = (Ok result, st') →
  ∃ d : gmap string pyval,
    result = PDict d ∧ dom d = success_keys ∧ d !! "success" = Some (PBool true).
Proof.
  unfold assemble. intros Hrun.
  apply bind_ok in Hrun as (encoded & st1 & _ & Hrun). injection Hrun as <- _.
  eexists. split; [reflexivity |]. split; [| by simplify_map_eq].
  rewrite !dom_insert_L, dom_empty_L. unfold success_keys.
  apply set_eq. intros key. rewrite !elem_of_union, !elem_of_singleton, elem_of_empty.
  tauto.
Qed.

(** *** Type detection *)

Lemma gather_ok file_path skip_faces st doc_type text_content face_images st1 :
  gather U file_path skip_faces st = (Ok (doc_type, text_content, face_images), st1) →
  ∃ st0,
    read_text U file_path st = (Ok (doc_type, text_content), st0) ∧
    collect_faces U file_path doc_type skip_faces st0 = (Ok face_images, st1).
Proof.
  unfold gather. intros Hrun.
  apply bind_ok in Hrun as ([dt text] & st0 & Hread & Hrun).
  apply bind_ok in Hrun as (faces & st2 & Hcollect & Hrun).
  injection Hrun as <- <- <- <-. by exists st0.
Qed.

(** X4. When type detection raises, [process] returns the failure record
    with that message and calls no other collaborator. *)
Theorem type_detection_failure_is_fatal file_path skip_faces st msg w1 :
  get_document_type U file_path (world st) = (Raise msg, w1) →
  process U bytes_decode file_path skip_faces st
  = (Ok (failure_record msg),
     {| world := w1; trace := trace st ++ [EvGetDocumentType file_path] |}).
Proof.
  intros Htype.
  unfold process, try_except, process_body, gather, read_text, bind, call.
  by rewrite Htype.
Qed.

(** *** Images and faces *)

Lemma faces_loop_ok images acc st face_images st' :
  for_each images
    (fun img face_images =>
       bind (call (EvExtractFaces img) (extract_faces U img))
         (fun faces => ret (face_images ++ faces)))
    acc st = (Ok face_images, st') →
  trace st' = trace st ++ (EvExtractFaces <$> images).
Proof.
  revert acc st. induction images as [| img rest IH]; intros acc st; simpl.
  - intros [= _ <-]. by rewrite app_nil_r.
  - intros Hrun. apply bind_ok in Hrun as (acc' & st1 & Hbody & Hrun).
    apply IH in Hrun as ->.
    apply bind_ok in Hbody as (faces & st2 & Hcall & Hret).
    injection Hret as _ <-. unfold call in Hcall.
    destruct (extract_faces U img (world st)) as [r w']. injection Hcall as _ <-.
    simpl. by rewrite <- app_assoc.
Qed.

Lemma faces_loop_pure detect images acc st face_images st' :
  (∀ img w, extract_faces U img w = (Ok (detect img), w)) →
  for_each images
    (fun img face_images =>
       bind (call (EvExtractFaces img) (extract_faces U img))
         (fun faces => ret (face_images ++ faces)))
    acc st = (Ok face_images, st') →
  face_images = acc ++ concat (detect <$> images).
Proof.
  intros Hpure. revert acc st. induction images as [| img rest IH]; intros acc st; simpl.
  - intros [= <- _]. by rewrite app_nil_r.
  - intros Hrun. apply bind_ok in Hrun as (acc' & st1 & Hbody & Hrun).
    apply IH in Hrun as ->.
    apply bind_ok in Hbody as (faces & st2 & Hcall & Hret).
    injection Hret as <- _. unfold call in Hcall. rewrite Hpure in Hcall.
    injection Hcall as <- _. by rewrite <- app_assoc.
Qed.

Lemma collect_faces_ok file_path doc_type st face_images st1 :
  collect_faces U file_path doc_type false st = (Ok face_images, st1) →
  ∃ images w',
    extract_images U file_path doc_type (world st) = (Ok images, w') ∧
    trace st1 = trace st ++ EvExtractImages file_path doc_type
                              :: (EvExtractFaces <$> images) ∧
    ∀ detect,
      (∀ img w, extract_faces U img w = (Ok (detect img), w)) →
      face_images = concat (detect <$> images).
Proof.
  unfold collect_faces. intros Hrun.
  apply bind_ok in Hrun as (images & st0 & Hcall & Hloop).
  unfold call in Hcall.
  destruct (extract_images U file_path doc_type (world st)) as [r w'] eqn:Himages.
  injection Hcall as -> <-. exists images, w'. split; [done |].
  simpl in Hloop. split.
  - apply faces_loop_ok in Hloop as ->. simpl. by rewrite <- app_assoc.
  - intros detect Hpure. by eapply faces_loop_pure in Hloop.
Qed.

Lemma filter_face_detection_calls (images : list pyval) :
  filter (λ e, is_face_detection_call e = true) (EvExtractFaces <$> images)
  = EvExtractFaces <$> images.
Proof.
  induction images as [| img rest IH]; [done |].
  rewrite fmap_cons, filter_cons_True by done. by rewrite IH.
Qed.

Lemma comprehension_encode_ok face_images st encoded st' :
  comprehension (encode_face bytes_decode) face_images st = (Ok encoded, st') →
  Forall2 (encoded_as bytes_decode) face_images encoded.
Proof.
  revert st encoded st'.
  induction face_images as [| face rest IH]; intros st encoded st'; simpl.
  - intros [= <- _]. constructor.
  - intros Hrun.
    apply bind_ok in Hrun as (y & st1 & Hface & Hrun).
    apply bind_ok in Hrun as (ys & st2 & Hrest & Hrun).
    injection Hrun as <- _. constructor; [| by eapply IH].
    destruct face; simpl in *; try by injection Hface as <- _.
    apply bind_ok in Hface as (text & st3 & Hdec & Hret).
    injection Hret as <- _. unfold lift in Hdec. injection Hdec as Hdec _.
    by exists text.
Qed.

Lemma assemble_faces doc_type document_analysis api_available face_images st result st' :
  assemble bytes_decode doc_type document_analysis api_available face_images st
    = (Ok result, st') →
  ∃ encoded,
    item result "face_images" = Some (PList encoded) ∧
    Forall2 (encoded_as bytes_decode) face_images encoded.
Proof.
  unfold assemble. intros Hrun.
  apply bind_ok in Hrun as (encoded & st1 & Henc & Hrun). injection Hrun as <- _.
  exists encoded. split; [simpl; by simplify_map_eq |].
  by eapply comprehension_encode_ok.
Qed.

(** X5. In a successful run without [skip_faces], [extract_faces] is called
    once for every image that [extract_images] returned, in their order. *)
Theorem faces_detected_once_per_image file_path w result st' :
  process U bytes_decode file_path false (initial w) = (Ok result, st') →
  item result "success" = Some (PBool true) →
  ∃ doc_type text_content st0 images w',
    read_text U file_path (initial w) = (Ok (doc_type, text_content), st0) ∧
    extract_images U file_path doc_type (world st0) = (Ok images, w') ∧
    filter (λ e, is_face_detection_call e = true) (trace st')
    = EvExtractFaces <$> images.
Proof.
  intros Hrun Hsucc.
  apply process_ok in Hrun; [| done]. unfold process_body in Hrun.
  apply bind_ok in Hrun as ([[dt text] faces] & st1 & Hg & Hrest).
  apply (silent_analyze_and_assemble U bytes_decode is_face_detection_call) in Hrest
    as (evs3 & Htr3 & Hf3); try done.
  apply gather_ok in Hg as (st0 & Hread & Hcollect).
  pose proof Hread as Hread'.
  apply (silent_read_text U is_face_detection_call) in Hread'
    as (evs1 & Htr1 & Hf1); try done.
  apply collect_faces_ok in Hcollect as (images & w' & Himages & Htr2 & _).
  exists dt, text, st0, images, w'. split; [done |]. split; [done |].
  rewrite Htr3, Htr2, Htr1. simpl.
  rewrite !filter_app, Hf1, Hf3, app_nil_r. simpl.
  rewrite filter_cons_False by done. apply filter_face_detection_calls.
Qed.

(** X6. With [skip_faces] set, [extract_faces] is never called, whatever
    happens in the run. *)
Theorem skip_faces_never_detects file_path w :
  filter (λ e, is_face_detection_call e = true)
    (trace (process U bytes_decode file_path true (initial w)).2) = [].
Proof.
  rewrite process_final_state.
  destruct (process_body U bytes_decode file_path true (initial w))
    as [r st'] eqn:Hrun. simpl.
  eapply (silent_bind is_face_detection_call) in Hrun as (evs & Htr & Hf).
  - by rewrite Htr.
  - unfold gather.
    apply silent_bind; [by apply silent_read_text | intros [doc_type text_content]].
    apply silent_bind; [| intros; apply quiet_silent, quiet_ret].
    unfold collect_faces.
    apply silent_bind; [by apply silent_call | intros images].
    apply quiet_silent, quiet_ret.
  - intros gathered. by apply silent_analyze_and_assemble.
Qed.

(** X7. If face detection is a function [detect] of the image, the
    [face_images] of a successful record are the faces of the first image
    in detection order, then those of the second, and so on, each encoded
    as line 115 does. *)
Theorem faces_are_concatenated_in_image_order detect file_path w result st' :
  (∀ img w, extract_faces U img w = (Ok (detect img), w)) →
  process U bytes_decode file_path false (initial w) = (Ok result, st') →
  item result "success" = Some (PBool true) →
  ∃ doc_type text_content st0 images w' encoded,
    read_text U file_path (initial w) = (Ok (doc_type, text_content), st0) ∧
    extract_images U file_path doc_type (world st0) = (Ok images, w') ∧
    item result "face_images" = Some (PList encoded) ∧
    Forall2 (encoded_as bytes_decode) (concat (detect <$> images)) encoded.
Proof.
  intros Hpure Hrun Hsucc.
  apply process_ok, process_body_ok in Hrun; [| done].
  destruct Hrun as (dt & text & faces & st1 & ti & ta & st2 & d & av & st3
                    & Hg & _ & _ & Hasm).
  apply gather_ok in Hg as (st0 & Hread & Hcollect).
  apply collect_faces_ok in Hcollect as (images & w' & Himages & _ & Hfaces).
  rewrite (Hfaces detect Hpure) in Hasm.
  apply assemble_faces in Hasm as (encoded & Hitem & Henc).
  by exists dt, text, st0, images, w', encoded.
Qed.

(** X8. No element of the [face_images] of a successful record is a
    [bytes] object. *)
Theorem face_images_are_never_bytes file_path skip_faces st result st' :
  process U bytes_decode file_path skip_faces st = (Ok result, st') →
  item result "success" = Some (PBool true) →
  ∃ encoded,
    item result "face_images" = Some (PList encoded) ∧
    Forall (λ face, ∀ bs, face ≠ PBytes bs) encoded.
Proof.
  intros Hrun Hsucc.
  apply process_ok, process_body_ok in Hrun; [| done].
  destruct Hrun as (dt & text & faces & st1 & ti & ta & st2 & d & av & st3
                    & _ & _ & _ & Hasm).
  apply assemble_faces in Hasm as (encoded & Hitem & Henc).
  exists encoded. split; [done |]. clear Hitem.
  induction Henc as [| face enc faces' encs Hface _ IH]; [constructor |].
  constructor; [| done].
  intros bs ->. destruct face; simpl in Hface; try discriminate.
  by destruct Hface as (decoded & _ & ?).
Qed.

Lemma comprehension_encode_fails before bs after msg st :
  Forall (encodable bytes_decode) before →
  bytes_decode bs = Raise msg →
  comprehension (encode_face bytes_decode) (before ++ PBytes bs :: after) st
  = (Raise msg, st).
Proof.
  intros Hbefore Hbad. induction Hbefore as [| face rest Hface _ IH]; simpl.
  - unfold bind, lift. by rewrite Hbad.
  - assert (∃ y, encode_face bytes_decode face st = (Ok y, st)) as (y & Hy).
    { destruct face; simpl; try by eexists.
      destruct Hface as (text & Hdec). unfold bind, lift. rewrite Hdec. by eexists. }
    rewrite (bind_run _ _ _ _ _ Hy). unfold bind at 1. by rewrite IH.
Qed.

(** X9. A face payload of type [bytes] that does not decode fails the
    whole run, after every analysis has been made: the record returned is
    the failure record with the decoder's message. *)
Theorem undecodable_face_is_fatal file_path skip_faces st
    doc_type text_content before bs after st1 text_info text_api st2 info api st3 msg :
  gather U file_path skip_faces st
    = (Ok (doc_type, text_content, before ++ PBytes bs :: after), st1) →
  analyze_text U text_content st1 = (Ok (text_info, text_api), st2) →
  face_fallback U skip_faces (before ++ PBytes bs :: after) text_info text_api st2
    = (Ok (info, api), st3) →
  Forall (encodable bytes_decode) before →
  bytes_decode bs = Raise msg →
  process U bytes_decode file_path skip_faces st = (Ok (failure_record msg), st3).
Proof.
  intros Hg Ht Hf Hbefore Hbad.
  unfold process, try_except, process_body.
  rewrite (bind_run _ _ _ _ _ Hg). unfold analyze_and_assemble.
  rewrite (bind_run _ _ _ _ _ Ht), (bind_run _ _ _ _ _ Hf).
  unfold assemble, bind.
  by rewrite (comprehension_encode_fails _ _ _ _ _ Hbefore Hbad).
Qed.

(** X10. Images are extracted even when [skip_faces] is set: if
    [extract_images] raises, the run fails with its message whether faces
    were wanted or not, and nothing is called afterwards. *)
Theorem image_extraction_failure_is_fatal file_path skip_faces st
    doc_type text_content st0 msg w' :
  read_text U file_path st = (Ok (doc_type, text_content), st0) →
  extract_images U file_path doc_type (world st0) = (Raise msg, w') →
  process U bytes_decode file_path skip_faces st
  = (Ok (failure_record msg),
     {| world := w'; trace := trace st0 ++ [EvExtractImages file_path doc_type] |}).
Proof.
  intros Hread Himages.
  unfold process, try_except, process_body, gather.
  rewrite bind_assoc, (bind_run _ _ _ _ _ Hread).
  unfold collect_faces, bind, call. by rewrite Himages.
Qed.

(** *** The text that is read and analyzed *)

(** X11. When OCR is triggered but recognises nothing ([None] or the empty
    string), the native text is carried on unchanged. *)
Theorem empty_ocr_keeps_native_text file_path st doc_type w1 native w2 ocr w3 :
  get_document_type U file_path (world st) = (Ok doc_type, w1) →
  extract_text_from_document U file_path doc_type w1 = (Ok native, w2) →
  ocr_condition doc_type native →
  perform_ocr U file_path doc_type w2 = (Ok ocr, w3) →
  ocr = None ∨ ocr = Some "" →
  ∃ st', read_text U file_path st = (Ok (doc_type, native), st').
Proof.
  intros Htype Hnative Hcond Hocr Hempty.
  apply ocr_condition_spec in Hcond.
  unfold read_text, bind, call. rewrite Htype. simpl.
  rewrite Hnative. simpl. rewrite Hcond. simpl. rewrite Hocr.
  eexists. unfold ret, combine_text. by destruct Hempty as [-> | ->].
Qed.

Lemma analyze_text_trace text st r st' :
  text ≠ "" →
  analyze_text U (Some text) st = (r, st') →
  trace st' = trace st ++ [EvAnalyzeDocument text].
Proof.
  intros Htext. unfold analyze_text. destruct text as [| c rest]; [done |].
  change (truthy (PStr (String c rest))) with true. cbv beta iota.
  unfold bind at 1. unfold call.
  destruct (analyze_document U (String c rest) (world st)) as [[v | msg] w'];
    [| by intros [= _ <-]].
  intros Hrest.
  assert (quiet (World := World)
            (bind (as_dict "get" v)
               (fun d => ret (d, dict_get d "api_available" (PBool false))))) as Hq
    by (apply quiet_bind; [apply quiet_as_dict | intros; apply quiet_ret]).
  by apply Hq in Hrest as ->.
Qed.

(** X12. When the gathered text is non-empty, [analyze_document] is called
    exactly once in the run, and with that text: the native text together
    with what OCR added. *)
Theorem analyzed_text_is_the_gathered_text file_path skip_faces w
    doc_type text face_images st1 :
  gather U file_path skip_faces (initial w)
    = (Ok (doc_type, Some text, face_images), st1) →
  text ≠ "" →
  filter (λ e, is_text_analysis_call e = true)
    (trace (process U bytes_decode file_path skip_faces (initial w)).2)
  = [EvAnalyzeDocument text].
Proof.
  intros Hgather Htext. rewrite process_final_state.
  destruct (process_body U bytes_decode file_path skip_faces (initial w))
    as [r st'] eqn:Hrun. simpl.
  unfold process_body in Hrun. rewrite (bind_run _ _ _ _ _ Hgather) in Hrun.
  unfold analyze_and_assemble in Hrun.
  apply (calls_of_prefix is_text_analysis_call) in Hrun
    as (r1 & st2 & evs3 & Hanalysis & Htr3 & Hf3).
  2:{ intros [text_info text_api].
      apply silent_bind; [by apply silent_face_fallback | intros [info api]].
      apply quiet_silent, quiet_assemble. }
  apply analyze_text_trace in Hanalysis; [| done].
  apply (silent_gather U is_text_analysis_call) in Hgather
    as (evs1 & Htr1 & Hf1); try done.
  rewrite Htr3, Hanalysis, Htr1. simpl.
  by rewrite !filter_app, Hf1, Hf3.
Qed.

(** *** Analyses of unexpected shape *)

Lemma analyze_text_run text st d w' :
  text ≠ "" →
  analyze_document U text (world st) = (Ok (PDict d), w') →
  analyze_text U (Some text) st
  = (Ok (d, dict_get d "api_available" (PBool false)),
     {| world := w'; trace := trace st ++ [EvAnalyzeDocument text] |}).
Proof.
  intros Htext Hdoc. unfold analyze_text. destruct text as [| c rest]; [done |].
  change (truthy (PStr (String c rest))) with true. cbv beta iota.
  unfold bind, call. by rewrite Hdoc.
Qed.

Lemma need_face_analysis_without_faces skip_faces face_images document_analysis st :
  skip_faces = true ∨ face_images = [] →
  need_face_analysis skip_faces face_images document_analysis st = (Ok false, st).
Proof.
  unfold need_face_analysis. intros [-> | ->]; [done |]. by destruct skip_faces.
Qed.

(** X13. When faces are skipped or none was found, the returned
    [extracted_info] is the text analysis exactly as [analyze_document]
    gave it, whatever its [structured_info], with [api_available] set to
    its own value, or to [False] when it has none. *)
Theorem without_faces_the_text_analysis_is_returned file_path skip_faces st
    doc_type text face_images st1 d w2 :
  gather U file_path skip_faces st = (Ok (doc_type, Some text, face_images), st1) →
  text ≠ "" →
  analyze_document U text (world st1) = (Ok (PDict d), w2) →
  skip_faces = true ∨ face_images = [] →
  ∃ result,
    process U bytes_decode file_path skip_faces st
    = (Ok result, {| world := w2; trace := trace st1 ++ [EvAnalyzeDocument text] |}) ∧
    item result "success" = Some (PBool true) ∧
    item result "extracted_info"
    = Some (PDict (<["api_available" := dict_get d "api_available" (PBool false)]> d)).
Proof.
  intros Hgather Htext Hdoc Hnone.
  assert (face_images = []) as ->.
  { destruct Hnone as [-> | ->]; [by eapply gather_skip | done]. }
  pose proof (analyze_text_run text st1 d w2 Htext Hdoc) as Hanalysis.
  destruct (assemble_run bytes_decode doc_type d
              (dict_get d "api_available" (PBool false)) []
              {| world := w2; trace := trace st1 ++ [EvAnalyzeDocument text] |})
    as (result & Hassemble); [constructor |].
  exists result.
  assert (process_body U bytes_decode file_path skip_faces st
          = (Ok result, {| world := w2; trace := trace st1 ++ [EvAnalyzeDocument text] |}))
    as Hbody.
  { unfold process_body. rewrite (bind_run _ _ _ _ _ Hgather).
    unfold analyze_and_assemble. rewrite (bind_run _ _ _ _ _ Hanalysis).
    unfold face_fallback.
    rewrite bind_assoc, (bind_run _ _ _ _ _
                           (need_face_analysis_without_faces _ _ _ _ Hnone)).
    done. }
  apply assemble_ok in Hassemble as (encoded & _ & Hsucc & _ & Hinfo & _).
  split; [unfold process, try_except; by rewrite Hbody |]. done.
Qed.

(** X14. A text analysis that is not a dictionary, [None] included, fails
    the run with the AttributeError of its missing [get]. *)
Theorem text_analysis_must_be_a_dict file_path skip_faces st
    doc_type text face_images st1 v w2 :
  gather U file_path skip_faces st = (Ok (doc_type, Some text, face_images), st1) →
  text ≠ "" →
  analyze_document U text (world st1) = (Ok v, w2) →
  (∀ d, v ≠ PDict d) →
  process U bytes_decode file_path skip_faces st
  = (Ok (failure_record (attribute_error v "get")),
     {| world := w2; trace := trace st1 ++ [EvAnalyzeDocument text] |}).
Proof.
  intros Hgather Htext Hdoc Hshape.
  unfold process, try_except, process_body.
  rewrite (bind_run _ _ _ _ _ Hgather). unfold analyze_and_assemble, analyze_text.
  destruct text as [| c rest]; [done |].
  change (truthy (PStr (String c rest))) with true. cbv beta iota.
  unfold bind, call. rewrite Hdoc.
  destruct v; try done. by destruct (Hshape d).
Qed.

(** X15. A [structured_info] that is non-empty but not a mapping fails the
    run, with the AttributeError of its missing [get], exactly when there
    are faces to fall back on; [analyze_image_content] is not called. *)
Theorem malformed_structured_info_is_fatal_with_faces file_path st
    doc_type text_content first others st1 document_analysis api_available st2 v :
  gather U file_path false st = (Ok (doc_type, text_content, first :: others), st1) →
  analyze_text U text_content st1 = (Ok (document_analysis, api_available), st2) →
  document_analysis !! "structured_info" = Some v →
  truthy v = true →
  (∀ d, v ≠ PDict d) →
  process U bytes_decode file_path false st
  = (Ok (failure_record (attribute_error v "get")), st2).
Proof.
  intros Hgather Hanalysis Hinfo Htruthy Hshape.
  unfold process, try_except, process_body.
  rewrite (bind_run _ _ _ _ _ Hgather). unfold analyze_and_assemble.
  rewrite (bind_run _ _ _ _ _ Hanalysis).
  unfold face_fallback, need_face_analysis, dict_get, bind. rewrite Hinfo. simpl.
  rewrite Htruthy. simpl.
  destruct v; try done. by destruct (Hshape d).
Qed.

(** X16. An existing [structured_info] that is empty but not a mapping
    ([None], say) makes the merge of a successful image analysis fail: the
    run ends with the AttributeError of its missing [update]. *)
Theorem null_structured_info_breaks_the_merge file_path st
    doc_type text_content first others st1 document_analysis api_available st2 v
    image_analysis w3 fields :
  gather U file_path false st = (Ok (doc_type, text_content, first :: others), st1) →
  analyze_text U text_content st1 = (Ok (document_analysis, api_available), st2) →
  document_analysis !! "structured_info" = Some v →
  truthy v = false →
  (∀ d, v ≠ PDict d) →
  analyze_image_content U first (world st2) = (Ok (PDict image_analysis), w3) →
  truthy (dict_get image_analysis "success" PNone) = true →
  image_analysis !! "structured_info" = Some (PDict fields) →
  process U bytes_decode file_path false st
  = (Ok (failure_record (attribute_error v "update")),
     {| world := w3; trace := trace st2 ++ [EvAnalyzeImageContent first] |}).
Proof.
  intros Hgather Hanalysis Hinfo Hfalsy Hshape Himage Hsuccess Hfields.
  assert (truthy (PDict image_analysis) = true) as Himg.
  { unfold dict_get in Hsuccess.
    destruct (image_analysis !! "success") as [s |] eqn:Hs; [| done].
    by eapply truthy_dict_lookup. }
  unfold process, try_except, process_body.
  rewrite (bind_run _ _ _ _ _ Hgather). unfold analyze_and_assemble.
  rewrite (bind_run _ _ _ _ _ Hanalysis).
  unfold face_fallback, need_face_analysis, dict_get, bind. rewrite Hinfo. simpl.
  rewrite Hfalsy. simpl.
  unfold bind, call. rewrite Himage. simpl world. cbv beta iota.
  rewrite Himg. simpl as_dict. unfold ret at 1. cbv beta iota.
  unfold dict_get in Hsuccess. unfold dict_get. rewrite Hsuccess.
  unfold merge_image_analysis, bind, dict_get. rewrite Hinfo, Hfields. rewrite Hinfo.
  simpl. destruct v; try done. by destruct (Hshape d).
Qed.

(** *** Image analyses that do not count *)

Lemma analyze_face_unsuccessful face document_analysis api_available st v w' :
  analyze_image_content U face (world st) = (Ok v, w') →
  truthy v = false ∨
    (∃ image_analysis, v = PDict image_analysis ∧
                       truthy (dict_get image_analysis "success" PNone) = false) →
  analyze_face U face (document_analysis, api_available) st
  = (Ok (document_analysis, api_available),
     {| world := w'; trace := trace st ++ [EvAnalyzeImageContent face] |}).
Proof.
  intros Himage Hfailed. unfold analyze_face, bind, call. rewrite Himage.
  destruct Hfailed as [-> | (image_analysis & -> & Hsuccess)]; [done |].
  destruct (truthy (PDict image_analysis)); [| done].
  simpl as_dict. unfold ret at 1. by rewrite Hsuccess.
Qed.

Lemma face_fallback_due skip_faces first others document_analysis api_available
    st r st' :
  fallback_due skip_faces (first :: others) document_analysis = true →
  analyze_face U first (document_analysis, api_available) st = (r, st') →
  face_fallback U skip_faces (first :: others) document_analysis api_available st
  = (r, st').
Proof.
  intros Hdue Hface. unfold face_fallback. unfold bind at 1.
  destruct (need_face_analysis skip_faces (first :: others) document_analysis st)
    as [needed st0] eqn:Hneed.
  apply need_face_analysis_spec in Hneed as [-> Hneeded].
  rewrite Hdue in Hneeded. subst needed.
  change (take 1 (first :: others)) with [first]. cbn [for_each].
  unfold bind. rewrite Hface. by destruct r.
Qed.

(** X17. When the fallback runs but the image analysis is empty ([None],
    an empty dictionary) or its [success] is missing or false, nothing of it
    is used: [extracted_info] is the text analysis with the text analysis's
    own [api_available], whatever the image analysis says about
    availability. *)
Theorem unsuccessful_image_analysis_is_ignored file_path skip_faces w
    doc_type text_content face_images st1 document_analysis text_api st2
    first v w3 :
  gather U file_path skip_faces (initial w)
    = (Ok (doc_type, text_content, face_images), st1) →
  analyze_text U text_content st1 = (Ok (document_analysis, text_api), st2) →
  fallback_due skip_faces face_images document_analysis = true →
  head face_images = Some first →
  analyze_image_content U first (world st2) = (Ok v, w3) →
  truthy v = false ∨
    (∃ image_analysis, v = PDict image_analysis ∧
                       truthy (dict_get image_analysis "success" PNone) = false) →
  Forall (encodable bytes_decode) face_images →
  ∃ result st',
    process U bytes_decode file_path skip_faces (initial w) = (Ok result, st') ∧
    item result "success" = Some (PBool true) ∧
    item result "extracted_info"
    = Some (PDict (<["api_available" := text_api]> document_analysis)).
Proof.
  intros Hgather Hanalysis Hdue Hfirst Himage Hfailed Hencodable.
  destruct face_images as [| first' others]; [done |]. injection Hfirst as ->.
  pose proof (analyze_face_unsuccessful first document_analysis text_api st2 v w3
                Himage Hfailed) as Hface.
  destruct (assemble_run bytes_decode doc_type document_analysis text_api
              (first :: others)
              {| world := w3; trace := trace st2 ++ [EvAnalyzeImageContent first] |}
              Hencodable) as (result & Hassemble).
  exists result, {| world := w3; trace := trace st2 ++ [EvAnalyzeImageContent first] |}.
  assert (process_body U bytes_decode file_path skip_faces (initial w)
          = (Ok result,
             {| world := w3; trace := trace st2 ++ [EvAnalyzeImageContent first] |}))
    as Hbody.
  { unfold process_body. rewrite (bind_run _ _ _ _ _ Hgather).
    unfold analyze_and_assemble. rewrite (bind_run _ _ _ _ _ Hanalysis).
    by rewrite (bind_run _ _ _ _ _ (face_fallback_due _ _ _ _ _ _ _ _ Hdue Hface)). }
  apply assemble_ok in Hassemble as (encoded & _ & Hsucc & _ & Hinfo & _).
  split; [unfold process, try_except; by rewrite Hbody |]. done.
Qed.

(** X18. An [api_available] of the text analysis that counts as true is
    final: the image analysis cannot change it. *)
Theorem truthy_text_availability_is_final file_path skip_faces st result st'
    doc_type text_content face_images st1 document_analysis text_api st2 :
  process U bytes_decode file_path skip_faces st = (Ok result, st') →
  item result "success" = Some (PBool true) →
  gather U file_path skip_faces st = (Ok (doc_type, text_content, face_images), st1) →
  analyze_text U text_content st1 = (Ok (document_analysis, text_api), st2) →
  truthy text_api = true →
  ∃ info : gmap string pyval,
    item result "extracted_info" = Some (PDict info) ∧
    info !! "api_available" = Some text_api.
Proof.
  intros Hrun Hsucc Hgather Hanalysis Htruthy.
  apply process_ok, process_body_ok in Hrun
    as (dt & text & faces & st1' & ti & ta & st2' & info & api & st3
        & Hg & Ht & Hf & Hasm); [| done].
  rewrite Hgather in Hg. injection Hg as <- <- <- <-.
  rewrite Hanalysis in Ht. injection Ht as <- <- <-.
  apply face_fallback_keeps_truthy in Hf as ->; [| done].
  apply assemble_ok in Hasm as (encoded & _ & _ & _ & Hinfo & _).
  eexists. split; [exact Hinfo |]. by simplify_map_eq.
Qed.

End RunProperties.

(** ** The records that reach the caller *)

Section ReturnedRecords.

Context {World : Type}.
Variable R : raw_utils World.
Variable bytes_decode : list byte -> outcome string.

Lemma failure_record_keys msg :
  ∃ d : gmap string pyval,
    failure_record msg = PDict d ∧ d !! "success" = Some (PBool false) ∧
    dom d = {[ "success"; "error" ]} ∧ d !! "error" = Some (PStr msg).
Proof.
  eexists. split; [reflexivity |]. split; [by simplify_map_eq |].
  split; [| by simplify_map_eq].
  rewrite !dom_insert_L, dom_empty_L.
  apply set_eq. intros key. rewrite !elem_of_union, !elem_of_singleton, elem_of_empty.
  tauto.
Qed.

(** X3. Whenever [process] returns to its caller, what it returns is a
    dictionary of one of two shapes: the five keys of a successful record
    with [success = True] and no [error], or [success = False] together
    with an [error] string and nothing else. *)
Theorem record_has_one_of_two_shapes file_path skip_faces
    (st : state (World * option thrown)) result st' :
  process_escaping R bytes_decode file_path skip_faces st = (Returned result, st') →
  ∃ d : gmap string pyval,
    result = PDict d ∧
    ((d !! "success" = Some (PBool true) ∧ dom d = success_keys ∧
      d !! "error" = None) ∨
     (d !! "success" = Some (PBool false) ∧ dom d = {[ "success"; "error" ]} ∧
      ∃ msg, d !! "error" = Some (PStr msg))).
Proof.
  unfold process_escaping.
  destruct (process_body (with_escapes R) bytes_decode file_path skip_faces st)
    as [[body_result | msg] st1] eqn:Hbody.
  - intros [= <- <-].
    apply process_body_ok in Hbody
      as (dt & text & faces & st2 & ti & ta & st3 & info & api & st4
          & _ & _ & _ & Hasm).
    apply assemble_keys in Hasm as (d & -> & Hdom & Hsucc).
    exists d. split; [done |]. left. split; [done |]. split; [done |].
    apply not_elem_of_dom. rewrite Hdom. unfold success_keys.
    rewrite !elem_of_union, !elem_of_singleton. intros Hkey. destruct_or!; discriminate.
  - intros Hrun.
    assert (result = failure_record msg) as ->.
    { destruct (in_flight st1) as [e |]; [destruct (converted e) |]; congruence. }
    destruct (failure_record_keys msg) as (d & -> & Hsucc & Hdom & Herr).
    exists d. split; [done |]. right. eauto.
Qed.

End ReturnedRecords.

(** ** Properties of [allowed_file] *)

Lemma rsplit_last_none sep s : char_in sep s = false → rsplit_last sep s = None.
Proof.
  induction s as [| c rest IH]; simpl; [done |].
  intros [Hc Hrest]%orb_false_iff. by rewrite IH, Hc.
Qed.

Lemma rsplit_last_at_last sep stem ext :
  char_in sep ext = false →
  rsplit_last sep (stem +:+ String sep ext) = Some (stem, ext).
Proof.
  intros Hext. induction stem as [| c rest IH]; simpl.
  - by rewrite (rsplit_last_none _ _ Hext), Ascii.eqb_refl.
  - by rewrite IH.
Qed.

Lemma char_in_app sep stem ext : char_in sep (stem +:+ String sep ext) = true.
Proof.
  induction stem as [| c rest IH]; simpl.
  - by rewrite Ascii.eqb_refl.
  - rewrite IH. apply orb_true_r.
Qed.

Lemma rsplit_last_some sep s :
  char_in sep s = true →
  ∃ before after,
    rsplit_last sep s = Some (before, after) ∧
    s = before +:+ String sep after ∧ char_in sep after = false.
Proof.
  induction s as [| c rest IH]; simpl; [done |].
  destruct (char_in sep rest) eqn:Hrest.
  - intros _. destruct IH as (before & after & -> & -> & Hafter); [done |].
    by exists (String c before), after.
  - rewrite orb_false_r. intros Hc. rewrite (rsplit_last_none _ _ Hrest), Hc.
    apply Ascii.eqb_eq in Hc as ->. by exists EmptyString, rest.
Qed.

(** X19. [allowed_file] looks at nothing but the text after the last dot,
    in lower case: for an extension without a dot, whatever comes before the
    dot, the answer is whether the lower-cased extension is allowed. *)
Theorem allowed_file_judges_the_last_extension stem extension :
  char_in "." extension = false →
  allowed_file (stem +:+ "." +:+ extension)
  = Ok (bool_decide (lower extension ∈ ALLOWED_EXTENSIONS)).
Proof.
  intros Hext. unfold allowed_file, rsplit1.
  change ("." +:+ extension) with (String "." extension).
  by rewrite char_in_app, (rsplit_last_at_last _ _ _ Hext).
Qed.

(** X20. [allowed_file] never raises, and it accepts a name exactly when
    the name has a dot and the text after its last dot, lower-cased, is an
    allowed extension; a name without a dot is rejected. *)
Theorem allowed_file_accepts_iff filename :
  ∃ accepted,
    allowed_file filename = Ok accepted ∧
    (accepted = true ↔
     ∃ stem extension,
       filename = stem +:+ "." +:+ extension ∧
       char_in "." extension = false ∧
       lower extension ∈ ALLOWED_EXTENSIONS).
Proof.
  unfold allowed_file, rsplit1.
  destruct (char_in "." filename) eqn:Hdot.
  - destruct (rsplit_last_some _ _ Hdot) as (stem & extension & -> & -> & Hext).
    eexists. split; [reflexivity |]. rewrite bool_decide_eq_true. split.
    + intros Hin. by exists stem, extension.
    + intros (stem' & extension' & Heq & Hext' & Hin).
      change ("." +:+ extension') with (String "." extension') in Heq.
      pose proof (rsplit_last_at_last "." stem extension Hext) as H1.
      rewrite Heq, (rsplit_last_at_last "." stem' extension' Hext') in H1.
      by injection H1 as -> ->.
  - exists false. split; [done |]. split; [done |].
    intros (stem & extension & -> & _).
    change ("." +:+ extension) with (String "." extension) in Hdot.
    by rewrite char_in_app in Hdot.
Qed.

Lemma lower_char_dot c : Ascii.eqb (lower_char c) "." = Ascii.eqb c ".".
Proof. by destruct c as [[] [] [] [] [] [] [] []]. Qed.

Lemma lower_char_idemp c : lower_char (lower_char c) = lower_char c.
Proof. by destruct c as [[] [] [] [] [] [] [] []]. Qed.

Lemma lower_idemp s : lower (lower s) = lower s.
Proof. induction s as [| c rest IH]; simpl; [done |]. by rewrite lower_char_idemp, IH. Qed.

Lemma char_in_lower s : char_in "." (lower s) = char_in "." s.
Proof. induction s as [| c rest IH]; simpl; [done |]. by rewrite lower_char_dot, IH. Qed.

Lemma rsplit_last_lower s :
  rsplit_last "." (lower s)
  = (λ parts, (lower parts.1, lower parts.2)) <$> rsplit_last "." s.
Proof.
  induction s as [| c rest IH]; simpl; [done |].
  rewrite IH, lower_char_dot.
  destruct (rsplit_last "." rest) as [[before after] |]; simpl; [done |].
  by destruct (Ascii.eqb c ".").
Qed.

(** X21. [allowed_file] is insensitive to case: a name and its lower-case
    form get the same answer. *)
Theorem allowed_file_ignores_case filename :
  allowed_file (lower filename) = allowed_file filename.
Proof.
  unfold allowed_file, rsplit1. rewrite char_in_lower, rsplit_last_lower.
  destruct (char_in "." filename); [| done].
  destruct (rsplit_last "." filename) as [[before after] |]; simpl; [| done].
  by rewrite lower_idemp.
Qed.

(** ** Properties of [save_faces] and [api_process] *)

Section FileProperties.

Context {World : Type}.
Variable OS : system World.
Variable U : utils World.
Variable bytes_decode : list byte -> outcome string.
Variable b64decode : pyval -> outcome (list byte).
Variable joined_extensions : string.

Implicit Types (st : state World).

Lemma effect_run {A} (f : external World A) st r w' :
  f (world st) = (r, w') →
  effect f st = (r, {| world := w'; trace := trace st |}).
Proof. intros Hf. unfold effect. by rewrite Hf. Qed.

(** A turn of the loop never raises: it adds the path of its own position,
    or nothing. *)
Lemma save_face_result output_dir i face face_paths st r st' :
  save_face OS b64decode output_dir i face face_paths st = (r, st') →
  r = Ok face_paths ∨
  r = Ok (face_paths ++ [path_join output_dir (face_file_name i)]).
Proof.
  unfold save_face, try_except, bind, lift, effect.
  destruct (b64decode face) as [data | msg]; [| intros [= <- _]; by left].
  destruct (write_file OS _ data (world st)) as [[[] | msg] w'];
    intros [= <- _]; [by right | by left].
Qed.

Lemma save_face_skips output_dir i face face_paths st msg :
  b64decode face = Raise msg →
  save_face OS b64decode output_dir i face face_paths st = (Ok face_paths, st).
Proof. intros Hbad. unfold save_face, try_except, bind, lift. by rewrite Hbad. Qed.

Lemma save_face_writes output_dir i face face_paths st data w' :
  b64decode face = Ok data →
  write_file OS (path_join output_dir (face_file_name i)) data (world st) = (Ok tt, w') →
  save_face OS b64decode output_dir i face face_paths st
  = (Ok (face_paths ++ [path_join output_dir (face_file_name i)]),
     {| world := w'; trace := trace st |}).
Proof.
  intros Hdata Hwrite. unfold save_face, try_except, bind, lift, effect.
  by rewrite Hdata, Hwrite.
Qed.

Lemma save_loop_positions output_dir faces start face_paths st r st' :
  for_each (enumerate_from start faces)
    (fun entry face_paths => save_face OS b64decode output_dir entry.1 entry.2 face_paths)
    face_paths st = (r, st') →
  ∃ kept,
    r = Ok (face_paths ++ ((λ i, path_join output_dir (face_file_name i)) <$> kept)) ∧
    sublist kept (seq start (length faces)).
Proof.
  revert start face_paths st.
  induction faces as [| face rest IH]; intros start face_paths st; simpl.
  - intros [= <- _]. exists []. by rewrite app_nil_r.
  - unfold bind at 1.
    destruct (save_face OS b64decode output_dir start face face_paths st)
      as [r1 st1] eqn:Hface.
    apply save_face_result in Hface as [-> | ->]; intros Hrest;
      apply IH in Hrest as (kept & -> & Hsub).
    + exists kept. split; [done |]. by apply sublist_cons.
    + exists (start :: kept). split; [by rewrite <- app_assoc |]. by apply sublist_skip.
Qed.

Lemma save_loop_working_disk output_dir faces start face_paths st :
  (∀ path data w, ∃ w', write_file OS path data w = (Ok tt, w')) →
  ∃ st',
    for_each (enumerate_from start faces)
      (fun entry face_paths => save_face OS b64decode output_dir entry.1 entry.2 face_paths)
      face_paths st
    = (Ok (face_paths ++
             ((λ entry, path_join output_dir (face_file_name entry.1)) <$>
              filter (λ entry, decodes b64decode entry.2 = true)
                (enumerate_from start faces))),
       st').
Proof.
  intros Hdisk. revert start face_paths st.
  induction faces as [| face rest IH]; intros start face_paths st; simpl.
  - exists st. by rewrite app_nil_r.
  - destruct (b64decode face) as [data | msg] eqn:Hdata.
    + destruct (Hdisk (path_join output_dir (face_file_name start)) data (world st))
        as (w' & Hwrite).
      rewrite (bind_run _ _ _ _ _
                 (save_face_writes output_dir start face face_paths st data w'
                    Hdata Hwrite)).
      destruct (IH (S start) (face_paths ++ [path_join output_dir (face_file_name start)])
                  {| world := w'; trace := trace st |}) as (st' & ->).
      exists st'.
      rewrite filter_cons_True by (unfold decodes; simpl; by rewrite Hdata).
      simpl. by rewrite <- app_assoc.
    + rewrite (bind_run _ _ _ _ _
                 (save_face_skips output_dir start face face_paths st msg Hdata)).
      destruct (IH (S start) face_paths st) as (st' & ->).
      exists st'.
      by rewrite filter_cons_False by (unfold decodes; simpl; by rewrite Hdata).
Qed.

Lemma save_faces_nothing_to_save result_dict output_dir st :
  truthy (dict_get result_dict "face_images" PNone) = false →
  save_faces OS b64decode (PDict result_dict) output_dir st = (Ok [], st).
Proof. intros Hnone. unfold save_faces, bind. simpl. by rewrite Hnone. Qed.

(** X22. Saving the faces of a run that failed, or that was made with
    [skip_faces], writes nothing and makes no directory: [save_faces]
    returns the empty list and leaves the world as it is. *)
Theorem nothing_is_saved_after_a_failed_or_skipped_run
    file_path skip_faces st0 result st0' output_dir st :
  process U bytes_decode file_path skip_faces st0 = (Ok result, st0') →
  item result "success" ≠ Some (PBool true) ∨ skip_faces = true →
  save_faces OS b64decode result output_dir st = (Ok [], st).
Proof.
  intros Hrun Hcase. unfold process, try_except in Hrun.
  destruct (process_body U bytes_decode file_path skip_faces st0)
    as [[body_result | msg] st1] eqn:Hbody.
  - injection Hrun as -> ->.
    apply process_body_ok in Hbody
      as (dt & text & faces & st1' & ti & ta & st2 & info & api & st3
          & Hg & _ & _ & Hasm).
    pose proof (assemble_keys _ _ _ _ _ _ _ _ Hasm) as (d & -> & _ & Hsucc).
    apply assemble_ok in Hasm as (encoded & Hlen & _ & _ & _ & _ & Hfaces).
    destruct Hcase as [Hfailed | ->]; [by destruct Hfailed |].
    apply gather_skip in Hg as ->. destruct encoded; [| done].
    apply save_faces_nothing_to_save. unfold dict_get. simpl in Hfaces.
    by rewrite Hfaces.
  - injection Hrun as <- _. apply save_faces_nothing_to_save.
    unfold dict_get. by simplify_map_eq.
Qed.

(** X23. Once the directory exists, [save_faces] never raises on a list of
    payloads: the paths it returns are [face_<i+1>.jpg] in the output
    directory for some positions [i] of the list, in increasing order; a
    payload that cannot be saved leaves a gap in the numbering. *)
Theorem saved_paths_are_numbered_by_position result_dict faces output_dir st w1 :
  result_dict !! "face_images" = Some (PList faces) →
  faces ≠ [] →
  makedirs OS output_dir (world st) = (Ok tt, w1) →
  ∃ kept st',
    save_faces OS b64decode (PDict result_dict) output_dir st
    = (Ok ((λ i, path_join output_dir (face_file_name i)) <$> kept), st') ∧
    sublist kept (seq 0 (length faces)).
Proof.
  intros Hfaces Hne Hdir. unfold save_faces. unfold bind at 1. simpl as_dict.
  unfold ret at 1. unfold dict_get. rewrite Hfaces. simpl.
  destruct faces as [| face rest]; [done |]. cbn [truthy negb].
  rewrite (bind_run _ _ _ _ _ (effect_run _ _ _ _ Hdir)).
  unfold bind at 1, lift at 1.
  destruct (for_each (enumerate_from 0 (face :: rest))
              (fun entry face_paths =>
                 save_face OS b64decode output_dir entry.1 entry.2 face_paths)
              [] {| world := w1; trace := trace st |}) as [r st'] eqn:Hloop.
  apply save_loop_positions in Hloop as (kept & -> & Hsub).
  by exists kept, st'.
Qed.

(** X24. On a disk where every write succeeds, [save_faces] returns the
    paths of exactly the payloads that [b64decode] accepts, each numbered by
    its own position in [face_images]. *)
Theorem every_decodable_face_is_saved result_dict faces output_dir st w1 :
  result_dict !! "face_images" = Some (PList faces) →
  faces ≠ [] →
  makedirs OS output_dir (world st) = (Ok tt, w1) →
  (∀ path data w, ∃ w', write_file OS path data w = (Ok tt, w')) →
  ∃ st',
    save_faces OS b64decode (PDict result_dict) output_dir st
    = (Ok ((λ entry, path_join output_dir (face_file_name entry.1)) <$>
           filter (λ entry, decodes b64decode entry.2 = true)
             (enumerate_from 0 faces)),
       st').
Proof.
  intros Hfaces Hne Hdir Hdisk. unfold save_faces. unfold bind at 1. simpl as_dict.
  unfold ret at 1. unfold dict_get. rewrite Hfaces. simpl.
  destruct faces as [| face rest]; [done |]. cbn [truthy negb].
  rewrite (bind_run _ _ _ _ _ (effect_run _ _ _ _ Hdir)).
  unfold bind at 1, lift at 1.
  destruct (save_loop_working_disk output_dir (face :: rest) 0 []
              {| world := w1; trace := trace st |} Hdisk) as (st' & Hloop).
  exists st'. exact Hloop.
Qed.

(** X25. The exception of [os.makedirs] is not caught: [save_faces] raises
    it, before any payload is decoded or written. *)
Theorem makedirs_failure_escapes_save_faces result_dict output_dir st msg w1 :
  truthy (dict_get result_dict "face_images" PNone) = true →
  makedirs OS output_dir (world st) = (Raise msg, w1) →
  save_faces OS b64decode (PDict result_dict) output_dir st
  = (Raise msg, {| world := w1; trace := trace st |}).
Proof.
  intros Hfaces Hdir. unfold save_faces. unfold bind at 1. simpl as_dict.
  unfold ret at 1. rewrite Hfaces. simpl.
  unfold bind, effect. by rewrite Hdir.
Qed.

(** *** The JSON endpoint *)


Lemma failure_record_is_json msg : jsonify (failure_record msg) = Ok (failure_record msg).
Proof. unfold jsonify. by vm_compute. Qed.

(** X26. An upload without a [document] part, without a file name, or with
    a name that [allowed_file] rejects is answered with status 400, and
    nothing else happens: no temporary file, no call of the pipeline. *)
Theorem rejected_uploads_touch_nothing files st :
  files !! "document" = None ∨
  (∃ file, files !! "document" = Some file ∧
     (filename file = None ∨ filename file = Some "" ∨
      ∃ name, filename file = Some name ∧ allowed_file name = Ok false)) →
  ∃ body,
    api_process OS U bytes_decode joined_extensions files st = (Ok (body, 400), st).
Proof.
  unfold api_process.
  intros [-> | (file & -> & Hname)]; [by eexists |].
  destruct file as [name content]. simpl in *.
  destruct Hname as [-> | [-> | (name' & -> & Hrejected)]].
  - rewrite bool_decide_eq_false_2 by done. by eexists.
  - rewrite bool_decide_eq_true_2 by done. by eexists.
  - case_bool_decide; [by eexists |].
    unfold upload_truthy. simpl.
    destruct name' as [| c rest]; [done |]. simpl.
    unfold bind, lift. rewrite Hrejected. by eexists.
Qed.

Lemma accepted_upload_runs files file name st :
  files !! "document" = Some file →
  filename file = Some name →
  allowed_file name = Ok true →
  api_process OS U bytes_decode joined_extensions files st
  = try_except
      (bind (effect (named_temporary_file OS)) (fun temp_name =>
       bind (effect (save_upload OS file temp_name)) (fun _ =>
       bind (effect (close_file OS temp_name)) (fun _ =>
       bind (process U bytes_decode temp_name false) (fun result =>
       bind (effect (unlink OS temp_name)) (fun _ =>
       bind (lift (jsonify result)) (fun body =>
       ret (body, 200))))))))
      (fun msg => ret (error_body msg, 500)) st.
Proof.
  intros Hfile Hname Hallowed. unfold api_process. rewrite Hfile, Hname.
  destruct name as [| c rest]; [done |].
  rewrite bool_decide_eq_false_2 by done.
  unfold upload_truthy. rewrite Hname. simpl text_truthy. cbv iota.
  unfold bind at 1, lift at 1. simpl default. by rewrite Hallowed.
Qed.

(** X27. A failure of the pipeline is not an error of the endpoint: when
    the upload is accepted and the temporary file can be written and
    removed, an exception inside [process] is answered with status 200 and
    the failure record as body. *)
Theorem pipeline_failure_is_answered_with_200 files file name st
    temp_name w1 w2 w3 msg st4 w5 :
  files !! "document" = Some file →
  filename file = Some name →
  allowed_file name = Ok true →
  named_temporary_file OS (world st) = (Ok temp_name, w1) →
  save_upload OS file temp_name w1 = (Ok tt, w2) →
  close_file OS temp_name w2 = (Ok tt, w3) →
  process_body U bytes_decode temp_name false {| world := w3; trace := trace st |}
    = (Raise msg, st4) →
  unlink OS temp_name (world st4) = (Ok tt, w5) →
  api_process OS U bytes_decode joined_extensions files st
  = (Ok (failure_record msg, 200), {| world := w5; trace := trace st4 |}).
Proof.
  intros Hfile Hname Hallowed Htemp Hsave Hclose Hbody Hunlink.
  rewrite (accepted_upload_runs _ _ _ _ Hfile Hname Hallowed).
  unfold try_except at 1.
  rewrite (bind_run _ _ _ _ _ (effect_run _ _ _ _ Htemp)).
  rewrite (bind_run _ _ _ _ _ (effect_run (save_upload OS file temp_name)
                                 {| world := w1; trace := trace st |} _ _ Hsave)).
  rewrite (bind_run _ _ _ _ _ (effect_run (close_file OS temp_name)
                                 {| world := w2; trace := trace st |} _ _ Hclose)).
  assert (process U bytes_decode temp_name false {| world := w3; trace := trace st |}
          = (Ok (failure_record msg), st4)) as Hprocess
    by (unfold process, try_except; by rewrite Hbody).
  rewrite (bind_run _ _ _ _ _ Hprocess).
  rewrite (bind_run _ _ _ _ _ (effect_run _ _ _ _ Hunlink)).
  unfold bind, lift. by rewrite failure_record_is_json.
Qed.

(** X28. When saving the upload to the temporary file raises, the endpoint
    answers 500 with the message and returns at once: the pipeline is not
    run and [os.unlink] is not called, so the temporary file stays. *)
Theorem failed_save_leaves_the_temporary_file files file name st
    temp_name w1 msg w2 :
  files !! "document" = Some file →
  filename file = Some name →
  allowed_file name = Ok true →
  named_temporary_file OS (world st) = (Ok temp_name, w1) →
  save_upload OS file temp_name w1 = (Raise msg, w2) →
  api_process OS U bytes_decode joined_extensions files st
  = (Ok (error_body msg, 500), {| world := w2; trace := trace st |}).
Proof.
  intros Hfile Hname Hallowed Htemp Hsave.
  rewrite (accepted_upload_runs _ _ _ _ Hfile Hname Hallowed).
  unfold try_except at 1.
  rewrite (bind_run _ _ _ _ _ (effect_run _ _ _ _ Htemp)).
  unfold bind, effect. simpl. by rewrite Hsave.
Qed.


End FileProperties.

(** ** The further theorems at work on the test doubles *)

Import MoreStubs FileStubs.

(** X2 on the card: with three faces found, one image analysis at most. *)
Lemma collaborators_called_at_most_once_witness :
  length (filter (λ e, stage e = 6) (trace (run id_card "card.jpg" false).2)) ≤ 1.
Proof.
  apply (collaborators_called_at_most_once (stub id_card) ascii_decode
           "card.jpg" false tt 6).
  lia.
Defined.

(** X3 on a page of text whose analysis ends with a refused connection:
    the record has the two keys of a failure. *)
Lemma record_has_one_of_two_shapes_witness :
  ∃ d : gmap string pyval,
    failure_record "connection refused" = PDict d ∧
    ((d !! "success" = Some (PBool true) ∧ dom d = success_keys ∧
      d !! "error" = None) ∨
     (d !! "success" = Some (PBool false) ∧ dom d = {[ "success"; "error" ]} ∧
      ∃ msg, d !! "error" = Some (PStr msg))).
Proof.
  apply (record_has_one_of_two_shapes
           (EscapeStubs.analysis_leaves_with (Ordinary "connection refused"))
           ascii_decode "letter.docx" false EscapeStubs.fresh
           (failure_record "connection refused")
           {| world := (tt, Some (Ordinary "connection refused"));
              trace := [EvGetDocumentType "letter.docx";
                        EvExtractText "letter.docx" "docx";
                        EvExtractImages "letter.docx" "docx";
                        EvAnalyzeDocument "Name: Jane Doe"] |}).
  vm_compute; reflexivity.
Defined.

(** X4 on a file that cannot be opened. *)
Lemma type_detection_failure_is_fatal_witness :
  run unreadable "lost.pdf" false
  = (Ok (failure_record "cannot open file"),
     {| world := tt; trace := [EvGetDocumentType "lost.pdf"] |}).
Proof.
  apply (type_detection_failure_is_fatal (stub unreadable) ascii_decode
           "lost.pdf" false (initial tt) "cannot open file" tt).
  reflexivity.
Defined.

(** X5 on the card: three images, three detections. *)
Lemma faces_detected_once_per_image_witness :
  ∃ doc_type text_content st0 images w',
    read_text (stub id_card) "card.jpg" (initial tt)
      = (Ok (doc_type, text_content), st0) ∧
    extract_images (stub id_card) "card.jpg" doc_type (world st0) = (Ok images, w') ∧
    filter (λ e, is_face_detection_call e = true)
      (trace (run id_card "card.jpg" false).2)
    = EvExtractFaces <$> images.
Proof.
  apply (faces_detected_once_per_image (stub id_card) ascii_decode "card.jpg" tt
           (result_of (run id_card "card.jpg" false))
           (run id_card "card.jpg" false).2);
    vm_compute; reflexivity.
Defined.

Lemma card_detector_is_a_function img w :
  extract_faces (stub id_card) img w = (Ok (card_detect img), w).
Proof.
  simpl. unfold one_face_per_image, card_detect.
  destruct img as [| b | z | s | bs | l | d]; try reflexivity.
  destruct z as [| p | p]; try reflexivity.
  destruct p as [p | p |]; try reflexivity; destruct p; reflexivity.
Defined.

(** X7 on the card: the faces of image 0, then 1, then 2. *)
Lemma faces_are_concatenated_in_image_order_witness :
  ∃ doc_type text_content st0 images w' encoded,
    read_text (stub id_card) "card.jpg" (initial tt)
      = (Ok (doc_type, text_content), st0) ∧
    extract_images (stub id_card) "card.jpg" doc_type (world st0) = (Ok images, w') ∧
    item (result_of (run id_card "card.jpg" false)) "face_images"
      = Some (PList encoded) ∧
    Forall2 (encoded_as ascii_decode) (concat (card_detect <$> images)) encoded.
Proof.
  apply (faces_are_concatenated_in_image_order (stub id_card) ascii_decode
           card_detect "card.jpg" tt
           (result_of (run id_card "card.jpg" false))
           (run id_card "card.jpg" false).2).
  - apply card_detector_is_a_function.
  - vm_compute; reflexivity.
  - vm_compute; reflexivity.
Defined.

(** X8 on the card, two of whose faces are detected as bytes. *)
Lemma face_images_are_never_bytes_witness :
  ∃ encoded,
    item (result_of (run id_card "card.jpg" false)) "face_images"
      = Some (PList encoded) ∧
    Forall (λ face, ∀ bs, face ≠ PBytes bs) encoded.
Proof.
  apply (face_images_are_never_bytes (stub id_card) ascii_decode "card.jpg" false
           (initial tt) _ (run id_card "card.jpg" false).2);
    vm_compute; reflexivity.
Defined.

(** X9 on the picture with a broken second face. *)
Lemma undecodable_face_is_fatal_witness :
  (run card_broken_face "card.jpg" false).1
  = Ok (failure_record "'utf-8' codec can't decode bytes").
Proof.
  pose proof (undecodable_face_is_fatal (stub card_broken_face) ascii_decode
                "card.jpg" false (initial tt) "image" (Some card_text)
                [face_a] [xff; xfe]%byte [face_c]
                (gather (stub card_broken_face) "card.jpg" false (initial tt)).2
                card_text_info (PBool true)
                (analyze_text (stub card_broken_face) (Some card_text)
                   (gather (stub card_broken_face) "card.jpg" false (initial tt)).2).2
                (<["structured_info" :=
                     PDict (image_fields card_image_info
                            ∪ <["document" := PStr "card"]>
                                (<["name" := PStr "from text"]> ∅))]> card_text_info)
                (PBool true)
                (run card_broken_face "card.jpg" false).2
                "'utf-8' codec can't decode bytes") as Hfatal.
  unfold run. rewrite Hfatal; [reflexivity | | | | |].
  - vm_compute; reflexivity.
  - vm_compute; reflexivity.
  - vm_compute; reflexivity.
  - repeat constructor. simpl. by eexists.
  - reflexivity.
Defined.

(** X10 on the card whose image stream is corrupt, faces skipped or not. *)
Lemma image_extraction_failure_is_fatal_witness :
  (run card_images_crash "card.jpg" true).1
  = Ok (failure_record "corrupt image stream").
Proof.
  unfold run.
  rewrite (image_extraction_failure_is_fatal (stub card_images_crash) ascii_decode
             "card.jpg" true (initial tt) "image" (Some card_text)
             (read_text (stub card_images_crash) "card.jpg" (initial tt)).2
             "corrupt image stream" tt); [reflexivity | |].
  - vm_compute; reflexivity.
  - reflexivity.
Defined.

(** X11 on the card when OCR finds nothing. *)
Lemma empty_ocr_keeps_native_text_witness :
  ∃ st', read_text (stub card_blank_ocr) "card.jpg" (initial tt)
         = (Ok ("image", Some ten_chars), st').
Proof.
  apply (empty_ocr_keeps_native_text (stub card_blank_ocr) "card.jpg" (initial tt)
           "image" tt (Some ten_chars) tt (Some "") tt).
  - reflexivity.
  - reflexivity.
  - split; [by left |]. right; right. exists ten_chars. split; [reflexivity |].
    simpl. lia.
  - reflexivity.
  - by right.
Defined.

(** X12 on the card: the analyzer receives the native text, a blank line
    and the OCR text. *)
Lemma analyzed_text_is_the_gathered_text_witness :
  filter (λ e, is_text_analysis_call e = true)
    (trace (run id_card "card.jpg" false).2)
  = [EvAnalyzeDocument card_text].
Proof.
  apply (analyzed_text_is_the_gathered_text (stub id_card) ascii_decode
           "card.jpg" false tt "image" card_text three_faces
           (gather (stub id_card) "card.jpg" false (initial tt)).2).
  - vm_compute; reflexivity.
  - discriminate.
Defined.

(** X13 on a page of text whose analysis has no [api_available]. *)
Lemma without_faces_the_text_analysis_is_returned_witness :
  ∃ result,
    run (text_pdf_with (Ok (PDict bare_info))) "page.pdf" false
    = (Ok result,
       {| world := tt;
          trace := trace (gather (stub (text_pdf_with (Ok (PDict bare_info))))
                            "page.pdf" false (initial tt)).2
                   ++ [EvAnalyzeDocument page_text] |}) ∧
    item result "success" = Some (PBool true) ∧
    item result "extracted_info"
    = Some (PDict (<["api_available" := PBool false]> bare_info)).
Proof.
  apply (without_faces_the_text_analysis_is_returned
           (stub (text_pdf_with (Ok (PDict bare_info)))) ascii_decode
           "page.pdf" false (initial tt) "pdf" page_text []
           (gather (stub (text_pdf_with (Ok (PDict bare_info))))
              "page.pdf" false (initial tt)).2
           bare_info tt).
  - vm_compute; reflexivity.
  - discriminate.
  - reflexivity.
  - by right.
Defined.

(** X14 on a page of text whose analysis comes back as [None]. *)
Lemma text_analysis_must_be_a_dict_witness :
  (run (text_pdf_with (Ok PNone)) "page.pdf" false).1
  = Ok (failure_record "'NoneType' object has no attribute 'get'").
Proof.
  unfold run.
  rewrite (text_analysis_must_be_a_dict (stub (text_pdf_with (Ok PNone))) ascii_decode
             "page.pdf" false (initial tt) "pdf" page_text []
             (gather (stub (text_pdf_with (Ok PNone))) "page.pdf" false (initial tt)).2
             PNone tt); [reflexivity | | | |].
  - vm_compute; reflexivity.
  - discriminate.
  - reflexivity.
  - discriminate.
Defined.

(** X15 on the card whose [structured_info] is a sentence. *)
Lemma malformed_structured_info_is_fatal_with_faces_witness :
  (run (card_with (Ok (PDict garbled_info)) (Ok (PDict card_image_info)))
     "card.jpg" false).1
  = Ok (failure_record "'str' object has no attribute 'get'").
Proof.
  unfold run.
  rewrite (malformed_structured_info_is_fatal_with_faces
             (stub (card_with (Ok (PDict garbled_info)) (Ok (PDict card_image_info))))
             ascii_decode "card.jpg" (initial tt) "image" (Some card_text)
             face_a [face_b; face_c]
             (gather (stub (card_with (Ok (PDict garbled_info))
                              (Ok (PDict card_image_info))))
                "card.jpg" false (initial tt)).2
             garbled_info (PBool true)
             (analyze_text (stub (card_with (Ok (PDict garbled_info))
                                    (Ok (PDict card_image_info))))
                (Some card_text)
                (gather (stub (card_with (Ok (PDict garbled_info))
                                 (Ok (PDict card_image_info))))
                   "card.jpg" false (initial tt)).2).2
             (PStr "n/a")); [reflexivity | | | | |].
  - vm_compute; reflexivity.
  - vm_compute; reflexivity.
  - vm_compute; reflexivity.
  - reflexivity.
  - discriminate.
Defined.

(** X16 on the card whose [structured_info] is [None]. *)
Lemma null_structured_info_breaks_the_merge_witness :
  (run (card_with (Ok (PDict null_info)) (Ok (PDict card_image_info)))
     "card.jpg" false).1
  = Ok (failure_record "'NoneType' object has no attribute 'update'").
Proof.
  unfold run.
  rewrite (null_structured_info_breaks_the_merge
             (stub (card_with (Ok (PDict null_info)) (Ok (PDict card_image_info))))
             ascii_decode "card.jpg" (initial tt) "image" (Some card_text)
             face_a [face_b; face_c]
             (gather (stub (card_with (Ok (PDict null_info))
                              (Ok (PDict card_image_info))))
                "card.jpg" false (initial tt)).2
             null_info (PBool true)
             (analyze_text (stub (card_with (Ok (PDict null_info))
                                    (Ok (PDict card_image_info))))
                (Some card_text)
                (gather (stub (card_with (Ok (PDict null_info))
                                 (Ok (PDict card_image_info))))
                   "card.jpg" false (initial tt)).2).2
             PNone card_image_info tt
             (<["name" := PStr "from image"]> (<["gender" := PStr "F"]> ∅)));
    [reflexivity | | | | | | | |].
  - vm_compute; reflexivity.
  - vm_compute; reflexivity.
  - vm_compute; reflexivity.
  - reflexivity.
  - discriminate.
  - reflexivity.
  - vm_compute; reflexivity.
  - vm_compute; reflexivity.
Defined.

(** X17 on the card when the image analysis reports no success. *)
Lemma unsuccessful_image_analysis_is_ignored_witness :
  ∃ result st',
    run (card_with (Ok (PDict card_text_info)) (Ok (PDict refused_image_info)))
      "card.jpg" false = (Ok result, st') ∧
    item result "success" = Some (PBool true) ∧
    item result "extracted_info"
    = Some (PDict (<["api_available" := PBool true]> card_text_info)).
Proof.
  apply (unsuccessful_image_analysis_is_ignored
           (stub (card_with (Ok (PDict card_text_info)) (Ok (PDict refused_image_info))))
           ascii_decode "card.jpg" false tt "image" (Some card_text) three_faces
           (gather (stub (card_with (Ok (PDict card_text_info))
                            (Ok (PDict refused_image_info))))
              "card.jpg" false (initial tt)).2
           card_text_info (PBool true)
           (analyze_text (stub (card_with (Ok (PDict card_text_info))
                                  (Ok (PDict refused_image_info))))
              (Some card_text)
              (gather (stub (card_with (Ok (PDict card_text_info))
                               (Ok (PDict refused_image_info))))
                 "card.jpg" false (initial tt)).2).2
           face_a (PDict refused_image_info) tt).
  - vm_compute; reflexivity.
  - vm_compute; reflexivity.
  - vm_compute; reflexivity.
  - reflexivity.
  - reflexivity.
  - right. exists refused_image_info. split; [reflexivity | vm_compute; reflexivity].
  - repeat constructor; simpl; by eexists.
Defined.

(** X18 on the card: the text analysis said the service was available. *)
Lemma truthy_text_availability_is_final_witness :
  ∃ info : gmap string pyval,
    item (result_of (run id_card "card.jpg" false)) "extracted_info"
      = Some (PDict info) ∧
    info !! "api_available" = Some (PBool true).
Proof.
  apply (truthy_text_availability_is_final (stub id_card) ascii_decode
           "card.jpg" false (initial tt)
           (result_of (run id_card "card.jpg" false))
           (run id_card "card.jpg" false).2
           "image" (Some card_text) three_faces
           (gather (stub id_card) "card.jpg" false (initial tt)).2
           card_text_info (PBool true)
           (analyze_text (stub id_card) (Some card_text)
              (gather (stub id_card) "card.jpg" false (initial tt)).2).2).
  - vm_compute; reflexivity.
  - vm_compute; reflexivity.
  - vm_compute; reflexivity.
  - vm_compute; reflexivity.
  - reflexivity.
Defined.

(** X19 on an upper-case extension after a dotted stem. *)
Lemma allowed_file_judges_the_last_extension_witness :
  allowed_file "scan.2024.JPEG" = Ok true.
Proof.
  change "scan.2024.JPEG" with ("scan.2024" +:+ "." +:+ "JPEG").
  rewrite (allowed_file_judges_the_last_extension "scan.2024" "JPEG");
    [| reflexivity].
  vm_compute; reflexivity.
Defined.

(** X22 on the card when the image analyzer raises: nothing to save. *)
Lemma nothing_is_saved_after_a_failed_or_skipped_run_witness :
  save_faces (disk true true) toy_b64decode
    (result_of (run id_card_vision_crash "card.jpg" false)) "out/faces" (initial tt)
  = (Ok [], initial tt).
Proof.
  apply (nothing_is_saved_after_a_failed_or_skipped_run (disk true true)
           (stub id_card_vision_crash) ascii_decode toy_b64decode
           "card.jpg" false (initial tt)
           (result_of (run id_card_vision_crash "card.jpg" false))
           (run id_card_vision_crash "card.jpg" false).2).
  - vm_compute; reflexivity.
  - left. vm_compute. discriminate.
Defined.

(** X23 on three payloads whose second cannot be decoded. *)
Lemma saved_paths_are_numbered_by_position_witness :
  ∃ kept st',
    save_faces (disk true true) toy_b64decode three_payloads "out/faces" (initial tt)
    = (Ok ((λ i, path_join "out/faces" (face_file_name i)) <$> kept), st') ∧
    sublist kept (seq 0 3).
Proof.
  apply (saved_paths_are_numbered_by_position (disk true true) toy_b64decode
           (<["success" := PBool true]>
              (<["face_images" := PList [PStr "QUE9"; PInt 7; PStr "Q0M9"]]> ∅))
           [PStr "QUE9"; PInt 7; PStr "Q0M9"] "out/faces" (initial tt) tt).
  - vm_compute; reflexivity.
  - discriminate.
  - reflexivity.
Defined.

(** X24 on the same payloads: the first and the third are saved, as
    [face_1.jpg] and [face_3.jpg]. *)
Lemma every_decodable_face_is_saved_witness :
  ∃ st',
    save_faces (disk true true) toy_b64decode three_payloads "out/faces" (initial tt)
    = (Ok ["out/faces/face_1.jpg"; "out/faces/face_3.jpg"], st').
Proof.
  destruct (every_decodable_face_is_saved (disk true true) toy_b64decode
              (<["success" := PBool true]>
                 (<["face_images" := PList [PStr "QUE9"; PInt 7; PStr "Q0M9"]]> ∅))
              [PStr "QUE9"; PInt 7; PStr "Q0M9"] "out/faces" (initial tt) tt)
    as (st' & Hsaved).
  - vm_compute; reflexivity.
  - discriminate.
  - reflexivity.
  - intros path data w. by exists w.
  - exists st'. exact Hsaved.
Defined.

(** X25 on a directory that cannot be made. *)
Lemma makedirs_failure_escapes_save_faces_witness :
  save_faces (disk false true) toy_b64decode three_payloads "/root/faces" (initial tt)
  = (Raise "Permission denied", initial tt).
Proof.
  apply (makedirs_failure_escapes_save_faces (disk false true) toy_b64decode
           (<["success" := PBool true]>
              (<["face_images" := PList [PStr "QUE9"; PInt 7; PStr "Q0M9"]]> ∅))
           "/root/faces" (initial tt) "Permission denied" tt).
  - vm_compute; reflexivity.
  - reflexivity.
Defined.

(** X26 on an upload named like a text file. *)
Lemma rejected_uploads_touch_nothing_witness :
  ∃ body,
    api_process (disk true true) (stub id_card) ascii_decode "pdf, png"
      (<["document" := {| filename := Some "notes.txt"; content := [] |}]> ∅)
      (initial tt)
    = (Ok (body, 400), initial tt).
Proof.
  apply (rejected_uploads_touch_nothing (disk true true) (stub id_card) ascii_decode
           "pdf, png").
  right. exists {| filename := Some "notes.txt"; content := [] |}.
  split; [by simplify_map_eq |]. right; right. exists "notes.txt".
  split; [reflexivity | vm_compute; reflexivity].
Defined.

(** X27 on an accepted upload that the pipeline cannot open. *)
Lemma pipeline_failure_is_answered_with_200_witness :
  api_process (disk true true) (stub unreadable) ascii_decode "pdf, png"
    (<["document" := passport_upload]> ∅) (initial tt)
  = (Ok (failure_record "cannot open file", 200),
     {| world := tt; trace := [EvGetDocumentType "/tmp/tmpab12cd"] |}).
Proof.
  apply (pipeline_failure_is_answered_with_200 (disk true true) (stub unreadable)
           ascii_decode "pdf, png" (<["document" := passport_upload]> ∅)
           passport_upload "Passport.PDF" (initial tt) "/tmp/tmpab12cd" tt tt tt
           "cannot open file"
           {| world := tt; trace := [EvGetDocumentType "/tmp/tmpab12cd"] |} tt).
  - by simplify_map_eq.
  - reflexivity.
  - vm_compute; reflexivity.
  - reflexivity.
  - reflexivity.
  - reflexivity.
  - vm_compute; reflexivity.
  - reflexivity.
Defined.

(** X28 on a full disk. *)
Lemma failed_save_leaves_the_temporary_file_witness :
  api_process (disk true false) (stub id_card) ascii_decode "pdf, png"
    (<["document" := passport_upload]> ∅) (initial tt)
  = (Ok (error_body "No space left on device", 500), initial tt).
Proof.
  apply (failed_save_leaves_the_temporary_file (disk true false) (stub id_card)
           ascii_decode "pdf, png" (<["document" := passport_upload]> ∅)
           passport_upload "Passport.PDF" (initial tt) "/tmp/tmpab12cd" tt
           "No space left on device" tt).
  - by simplify_map_eq.
  - reflexivity.
  - vm_compute; reflexivity.
  - reflexivity.
  - reflexivity.
Defined.

